(** * WeatherLink Live driver for WeeWX: the normalisation loop of [bin/user/wll.py]

    The development embeds [loader], [WLL.__init__], [WLL.hardware_name]
    and [WLL.genLoopPackets] and proves properties of the field mapping, of
    the rain (storm counter) bookkeeping and of the error handling of the
    polling loop.

    Conventions of the embedding.
    - The values handed to the driver are the Python objects that
      [response.json()] builds: [None], [bool], [int], [float], [str],
      [list] and [dict].  Their dynamic behaviour ([==], [<=], [float()],
      [*], subscripting, iteration) is written out with the exceptions
      Python 3 raises.
    - A Python [int] is an integer of any size.  A Python [float] is an IEEE
      754 binary64 number, with its infinities, its signed zeros and NaN;
      the operations on floats are those of the library's specification of
      binary64 ([SpecFloat], precision 53, rounding to nearest even), so a
      product or a difference is rounded as Python rounds it, and
      [float(n)] of an [int] beyond the range of floats raises
      [OverflowError].
    - The JSON decoder accepts [NaN], [Infinity] and [-Infinity], and it
      hands out one and the same object for every [NaN]; inside a list or a
      dict Python takes identical items for equal before it asks [==].
    - [float()] applied to a [str] is a Python built-in whose grammar is not
      part of the driver; it is a parameter of the development.
    - [logerr] belongs to the host and returns normally.  [time.sleep]
      raises when its argument is negative, NaN or too large, as CPython 3
      does.  Both are recorded as events. *)

From Stdlib Require Import ZArith QArith Qminmax Lqa Zpower SpecFloat.
From stdpp Require Import base option strings list gmap.

Local Open Scope string_scope.

(** ** Floats *)

(** A Python [float]: a binary64 number. *)
Definition float : Type := spec_float.

Definition fmul : float -> float -> float := SFmul 53 1024.
Definition fsub : float -> float -> float := SFsub 53 1024.
Definition fdiv : float -> float -> float := SFdiv 53 1024.

(** The float nearest to the integer [n] (ties to even); an infinity when
    [n] is beyond the largest float. *)
Definition float_of_Z (n : Z) : float := binary_normalize 53 1024 n 0 false.

(** The float a decimal literal of the source denotes: the float nearest to
    [n / d], for [n] and [d] below 2^53. *)
Definition literal (n d : Z) : float := fdiv (float_of_Z n) (float_of_Z d).

(** [0.0] *)
Definition zero : float := S754_zero false.

Definition finite (x : float) : bool :=
  match x with
  | S754_zero _ | S754_finite _ _ _ => true
  | _ => false
  end.

(** What a number is worth in comparisons: Python compares an [int] and a
    [float] by their exact values. *)
Inductive number : Type :=
| NotANumber
| MinusInfinity
| Finite (q : Q)
| PlusInfinity.

(** [m * 2^e] *)
Definition dyadic (m e : Z) : Q :=
  match e with
  | Zneg k => m # (2 ^ k)%positive
  | _ => inject_Z (m * 2 ^ e)
  end.

Definition number_of_float (x : float) : number :=
  match x with
  | S754_zero _ => Finite 0
  | S754_infinity s => if s then MinusInfinity else PlusInfinity
  | S754_nan => NotANumber
  | S754_finite s m e => Finite (dyadic (cond_Zopp s (Zpos m)) e)
  end.

Definition number_eqb (a b : number) : bool :=
  match a, b with
  | MinusInfinity, MinusInfinity => true
  | Finite p, Finite q => Qeq_bool p q
  | PlusInfinity, PlusInfinity => true
  | _, _ => false
  end.

Definition number_leb (a b : number) : bool :=
  match a, b with
  | NotANumber, _ | _, NotANumber => false
  | MinusInfinity, _ => true
  | _, PlusInfinity => true
  | Finite p, Finite q => Qle_bool p q
  | _, _ => false
  end.

Definition number_ltb (a b : number) : bool :=
  number_leb a b && negb (number_eqb a b).

(** ** Python values *)

#[local] Set Warnings "-register-all".

Inductive value : Type :=
| PyNone
| PyBool (b : bool)
| PyInt (n : Z)
| PyFloat (x : float)
| PyStr (s : string)
| PyList (l : list value)
| PyDict (d : list (string * value)).

(** The exceptions the driver can meet; all of them derive from [Exception]. *)
Inductive exn : Type :=
| KeyError
| TypeError
| ValueError
| OverflowError
| UnboundLocalError.

Inductive result (A : Type) : Type :=
| Ok (a : A)
| Raise (e : exn).
Arguments Ok {A} a.
Arguments Raise {A} e.

(** A [dict] is kept as its list of items; a key occurs at most once in the
    items of a dict built by the JSON decoder, and [dict_get] reads the
    first item with the key. *)
Fixpoint dict_get (d : list (string * value)) (k : string) : option value :=
  match d with
  | [] => None
  | (k', v) :: d' => if String.eqb k k' then Some v else dict_get d' k
  end.

(** [bool] is a subclass of [int]: [True] counts as 1 and [False] as 0. *)
Definition as_num (v : value) : option number :=
  match v with
  | PyBool b => Some (Finite (if b then 1%Q else 0%Q))
  | PyInt n => Some (Finite (inject_Z n))
  | PyFloat x => Some (number_of_float x)
  | _ => None
  end.

Definition str_le (s t : string) : bool :=
  match String.compare s t with
  | Gt => false
  | _ => true
  end.

(** [a is b] as far as it differs from [a == b]: the NaN of the decoder is
    one object. *)
Definition same_nan (a b : value) : bool :=
  match a, b with
  | PyFloat S754_nan, PyFloat S754_nan => true
  | _, _ => false
  end.

(** [a == b]; the items of lists and dicts are compared with
    [a is b or a == b]. *)
Fixpoint py_eq (a b : value) : bool :=
  match a, b with
  | PyNone, PyNone => true
  | PyStr s, PyStr t => String.eqb s t
  | PyList xs, PyList ys =>
      (fix all2 (xs ys : list value) : bool :=
         match xs, ys with
         | [], [] => true
         | x :: xs', y :: ys' => (same_nan x y || py_eq x y) && all2 xs' ys'
         | _, _ => false
         end) xs ys
  | PyDict d, PyDict e =>
      Nat.eqb (length d) (length e) &&
      (fix every (d : list (string * value)) : bool :=
         match d with
         | [] => true
         | (k, v) :: d' =>
             (fix find (e : list (string * value)) : bool :=
                match e with
                | [] => false
                | (k', w) :: e' =>
                    if String.eqb k k' then same_nan v w || py_eq v w else find e'
                end) e && every d'
         end) d
  | _, _ =>
      match as_num a, as_num b with
      | Some p, Some q => number_eqb p q
      | _, _ => false
      end
  end.

(** [a <= b]; ordering is defined between numbers, between strings and
    between lists, and raises [TypeError] otherwise. *)
Fixpoint py_le (a b : value) : result bool :=
  match a, b with
  | PyStr s, PyStr t => Ok (str_le s t)
  | PyList xs, PyList ys =>
      (fix lex (xs ys : list value) : result bool :=
         match xs, ys with
         | [], _ => Ok true
         | _ :: _, [] => Ok false
         | x :: xs', y :: ys' =>
             if same_nan x y || py_eq x y then lex xs' ys' else py_le x y
         end) xs ys
  | _, _ =>
      match as_num a, as_num b with
      | Some p, Some q => Ok (number_leb p q)
      | _, _ => Raise TypeError
      end
  end.

(** [a >= b] *)
Definition py_ge (a b : value) : result bool := py_le b a.

(** [v is not None] *)
Definition is_not_None (v : value) : bool :=
  match v with
  | PyNone => false
  | _ => true
  end.

(** [v[k]] for a string [k] *)
Definition py_getitem (v : value) (k : string) : result value :=
  match v with
  | PyDict d =>
      match dict_get d k with
      | Some x => Ok x
      | None => Raise KeyError
      end
  | _ => Raise TypeError
  end.

Fixpoint chars (s : string) : list value :=
  match s with
  | EmptyString => []
  | String c s' => PyStr (String c EmptyString) :: chars s'
  end.

(** The items a [for] loop draws from [v]. *)
Definition py_iter (v : value) : result (list value) :=
  match v with
  | PyList l => Ok l
  | PyDict d => Ok (map (fun kv => PyStr (fst kv)) d)
  | PyStr s => Ok (chars s)
  | _ => Raise TypeError
  end.

(** [float(n)] for an [int] *)
Definition float_of_int (n : Z) : result float :=
  match float_of_Z n with
  | S754_infinity _ => Raise OverflowError
  | x => Ok x
  end.

(** [v * f] for a float [f]: an [int] is converted as [float()] converts
    it, and a [str] or a [list] cannot be repeated a float number of
    times. *)
Definition py_mul (v : value) (f : float) : result value :=
  match v with
  | PyBool b => Ok (PyFloat (fmul (float_of_Z (if b then 1 else 0)) f))
  | PyInt n =>
      match float_of_int n with
      | Ok x => Ok (PyFloat (fmul x f))
      | Raise e => Raise e
      end
  | PyFloat x => Ok (PyFloat (fmul x f))
  | _ => Raise TypeError
  end.

(** [time.sleep(secs)].  CPython turns the argument into a 64-bit number of
    nanoseconds, rounded away from zero: it raises [ValueError] for NaN,
    [OverflowError] when the nanoseconds do not fit, and [ValueError] when
    they are negative. *)
Definition time_sleep (secs : value) : result unit :=
  match secs with
  | PyFloat x =>
      match number_of_float (fmul x (float_of_Z 1000000000)) with
      | NotANumber => Raise ValueError
      | Finite ns =>
          if Qle_bool (inject_Z (- 2 ^ 63)) ns && negb (Qle_bool (inject_Z (2 ^ 63)) ns)
          then if negb (Qle_bool 0 ns) then Raise ValueError else Ok tt
          else Raise OverflowError
      | _ => Raise OverflowError
      end
  | PyInt _ | PyBool _ =>
      let n := match secs with PyInt n => n | PyBool true => 1%Z | _ => 0%Z end in
      if ((- 2 ^ 63 <=? n * 1000000000) && (n * 1000000000 <? 2 ^ 63))%Z
      then if (n <? 0)%Z then Raise ValueError else Ok tt
      else Raise OverflowError
  | _ => Raise TypeError
  end.

(** ** The driver *)

(** [MM_TO_INCH = 0.0393701] *)
Definition MM_TO_INCH : float := literal 393701 10000000.

(** [weewx.US], the unit-system tag of the weewx library. *)
Definition weewx_US : value := PyInt 1.

(** The attributes of a [WLL] instance that [genLoopPackets] reads or
    writes. *)
Record WLL : Type := mkWLL {
  poll_interval : float;
  last_rain_storm : value;
  last_rain_storm_start_at : value
}.

(** [WLL.__init__]: [poll_interval] is [float(stn_dict.get('poll_interval', 10))],
    and the two counters start as [None]. *)
Definition __init__ (poll : option float) : WLL :=
  {| poll_interval := default (float_of_Z 10) poll;
     last_rain_storm := PyNone;
     last_rain_storm_start_at := PyNone |}.

(** What a running [genLoopPackets] generator holds: the instance, and the
    locals that stay alive from one record (and one cycle) to the next. *)
Record frame : Type := mkFrame {
  self : WLL;
  rain_count_size : option float;
  _packet : gmap string value
}.

(** Statements of the loop body: they change the frame and either finish or
    raise; what was assigned before an exception stays assigned. *)
Definition M (A : Type) : Type := frame -> result A * frame.

#[export] Instance M_ret : MRet M := fun A a f => (Ok a, f).
#[export] Instance M_bind : MBind M := fun A B k m f =>
  match m f with
  | (Ok a, f') => k a f'
  | (Raise e, f') => (Raise e, f')
  end.

Definition lift {A : Type} (r : result A) : M A := fun f => (r, f).

Definition with_packet (f : frame) (p : gmap string value) : frame :=
  {| self := self f; rain_count_size := rain_count_size f; _packet := p |}.

(** [_packet = {...}] *)
Definition packet_new (p : gmap string value) : M unit := fun f =>
  (Ok tt, with_packet f p).

(** [_packet.update({key: v})] *)
Definition packet_update (key : string) (v : value) : M unit := fun f =>
  (Ok tt, with_packet f (<[key := v]> (_packet f))).

(** [rain_count_size = x] *)
Definition set_rain_count_size (x : float) : M unit := fun f =>
  (Ok tt, {| self := self f; rain_count_size := Some x; _packet := _packet f |}).

(** Reading the local [rain_count_size]; it is unbound until a record with a
    collector type equal to 1, 2, 3 or 4 has been seen. *)
Definition get_rain_count_size : M float := fun f =>
  match rain_count_size f with
  | Some x => (Ok x, f)
  | None => (Raise UnboundLocalError, f)
  end.

Definition get_self : M WLL := fun f => (Ok (self f), f).

Definition with_last (f : frame) (total start : value) : frame :=
  {| self := {| poll_interval := poll_interval (self f);
                last_rain_storm := total;
                last_rain_storm_start_at := start |};
     rain_count_size := rain_count_size f;
     _packet := _packet f |}.

(** [self.last_rain_storm = total; self.last_rain_storm_start_at = start] *)
Definition set_last (total start : value) : M unit := fun f =>
  (Ok tt, with_last f total start).

(** [for x in l: body x] *)
Fixpoint for_each {A : Type} (l : list A) (body : A -> M unit) : M unit :=
  match l with
  | [] => mret tt
  | x :: l' => body x ;; for_each l' body
  end.

(** [if src in condition: _packet.update({dst: condition[src]})] *)
Definition copy (condition : list (string * value)) (field : string * string) : M unit :=
  match dict_get condition (fst field) with
  | Some v => packet_update (snd field) v
  | None => mret tt
  end.

(** The pass-through fields, as (key of the record, key of the packet), in
    the order of the source. *)
Definition iss_fields : list (string * string) :=
  [ ("temp", "outTemp");
    ("hum", "outHumidity");
    ("dew_point", "dewpoint");
    ("heat_index", "heatindex");
    ("wind_chill", "windchill");
    ("wind_speed_last", "windSpeed");
    ("wind_dir_last", "windDir");
    ("wind_speed_hi_last_10_min", "windGust");
    ("wind_dir_scalar_avg_last_10_min", "windGustDir") ].

Definition iss_fields_after_rain : list (string * string) :=
  [ ("solar_rad", "radiation");
    ("uv_index", "UV");
    ("trans_battery_flag", "txBatteryStatus") ].

Definition leaf_soil_fields : list (string * string) :=
  [ ("temp_1", "soilTemp1");
    ("temp_2", "soilTemp2");
    ("temp_3", "soilTemp3");
    ("temp_4", "soilTemp4");
    ("moist_soil_1", "soilMoist1");
    ("moist_soil_2", "soilMoist3");
    ("moist_soil_3", "soilMoist3");
    ("moist_soil_4", "soilMoist4");
    ("wet_leaf_1", "leafWet1");
    ("wet_leaf_2", "leafWet2") ].

Definition bar_fields : list (string * string) :=
  [ ("bar_sea_level", "barometer");
    ("bar_absolute", "pressure") ].

Definition inside_fields : list (string * string) :=
  [ ("temp_in", "inTemp");
    ("hum_in", "inHumidity");
    ("dew_point_in", "inDewpoint") ].

(** The outcome of one [requests.get]: the call raises, or it returns a
    response whose [.json()] raises (no JSON body) or returns the decoded
    document. *)
Inductive response : Type :=
| GetRaises
| Body (json : option value).

(** What the generator does that its host can observe; a [Sleep] is the
    call of [time.sleep], whether it returns or raises. *)
Inductive event : Type :=
| Logerr (msg : string)
| LogerrException
| Sleep (seconds : value)
| Yield (packet : gmap string value).

(** What a stretch of the loop leaves: the events, the frame, and the
    exception that ended the generator, if one escaped the loop. *)
Record run : Type := mkRun {
  trace : list event;
  after : frame;
  stopped : option exn
}.

(** An instance of [float()] on text for closed examples: it accepts no
    text at all. *)
Definition no_text : string -> option float := fun _ => None.

(** An instance of [str()] on values other than text for closed examples. *)
Definition no_str : value -> string := fun _ => "".

Section Driver.

(** [float(s)] for a [str]: the float it denotes, or [None] when Python
    raises [ValueError]. *)
Variable float_of_str : string -> option float.

(** [float(v)] *)
Definition py_float (v : value) : result float :=
  match v with
  | PyBool b => Ok (float_of_Z (if b then 1 else 0))
  | PyInt n => float_of_int n
  | PyFloat x => Ok x
  | PyStr s =>
      match float_of_str s with
      | Some x => Ok x
      | None => Raise ValueError
      end
  | _ => Raise TypeError
  end.

(** Lines 206-220: the increment of the storm counter since the last
    reading, and the update of the stored reading. *)
Definition storm_count (rain_storm rain_storm_start_at : value) : M value :=
  this ← get_self;
  rain_count ←
    (if is_not_None (last_rain_storm this) && is_not_None (last_rain_storm_start_at this)
     then
       if negb (py_eq rain_storm_start_at (last_rain_storm_start_at this))
       then mret rain_storm
       else
         ge ← lift (py_ge rain_storm (last_rain_storm this));
         if (ge : bool)
         then
           a ← lift (py_float rain_storm);
           b ← lift (py_float (last_rain_storm this));
           mret (PyFloat (fsub a b))
         else mret (PyFloat zero)
     else mret (PyFloat zero));
  set_last rain_storm rain_storm_start_at;;
  mret rain_count.

(** Lines 206-222: the rain accumulation out of the storm counter. *)
Definition storm (rain_storm rain_storm_start_at : value) : M unit :=
  rain_count ← storm_count rain_storm rain_storm_start_at;
  size ← get_rain_count_size;
  rain ← lift (py_mul rain_count size);
  packet_update "rain" rain.

(** Lines 181-222: the rain collector block of an ISS record. *)
Definition rain (condition : list (string * value)) : M unit :=
  match dict_get condition "rain_size" with
  | None => mret tt
  | Some rain_collector_type =>
      lower ← lift (py_le (PyInt 1) rain_collector_type);
      in_range ← (if (lower : bool) then lift (py_le rain_collector_type (PyInt 4))
                   else mret false);
      if (in_range : bool)
      then
        (if py_eq rain_collector_type (PyInt 1) then set_rain_count_size (literal 1 100)
         else if py_eq rain_collector_type (PyInt 2)
              then set_rain_count_size (fmul (literal 2 10) MM_TO_INCH)
         else if py_eq rain_collector_type (PyInt 3) then set_rain_count_size (literal 1 10)
         else if py_eq rain_collector_type (PyInt 4)
              then set_rain_count_size (fmul (literal 1 1000) MM_TO_INCH)
         else mret tt);;
        match dict_get condition "rain_rate_last" with
        | Some rate =>
            r ← lift (py_float rate);
            size ← get_rain_count_size;
            packet_update "rainRate" (PyFloat (fmul r size))
        | None => mret tt
        end;;
        match dict_get condition "rain_storm", dict_get condition "rain_storm_start_at" with
        | Some rain_storm, Some rain_storm_start_at => storm rain_storm rain_storm_start_at
        | _, _ => mret tt
        end
      else mret tt
  end.

(** The body of the [for] loop (lines 149-285).  Only a [dict] can be
    subscripted with ["data_structure_type"]. *)
Definition process_condition (condition : value) : M unit :=
  data_structure_type ← lift (py_getitem condition "data_structure_type");
  match condition with
  | PyDict c =>
      if py_eq data_structure_type (PyInt 1)
      then for_each iss_fields (copy c);; rain c;; for_each iss_fields_after_rain (copy c)
      else if py_eq data_structure_type (PyInt 2) then for_each leaf_soil_fields (copy c)
      else if py_eq data_structure_type (PyInt 3) then for_each bar_fields (copy c)
      else if py_eq data_structure_type (PyInt 4) then for_each inside_fields (copy c)
      else mret tt
  | _ => mret tt
  end.

(** Lines 140-285: from the decoded document to the filled packet. *)
Definition fill_packet (data : value) : M unit :=
  d ← lift (py_getitem data "data");
  timestamp ← lift (py_getitem d "ts");
  packet_new (<["usUnits" := weewx_US]> (<["dateTime" := timestamp]> ∅));;
  d' ← lift (py_getitem data "data");
  conditions ← lift (py_getitem d' "conditions");
  items ← lift (py_iter conditions);
  for_each items process_condition.

(** Lines 138-285: what the outer [try] guards once the request has
    returned. *)
Definition parse (json : option value) : M unit :=
  data ← lift (match json with Some v => Ok v | None => Raise ValueError end);
  fill_packet data.

(** Lines 291-298: the handler of the outer [try].  An exception of its
    [time.sleep] is raised outside any [try]: it leaves the loop and ends
    the generator. *)
Definition handler (evs : list event) (f : frame) : run :=
  let secs := PyFloat (poll_interval (self f)) in
  {| trace := (evs ++ [Logerr "Error parsing the WeatherLink Live json data.";
                       LogerrException; Sleep secs])%list;
     after := f;
     stopped := match time_sleep secs with
                | Ok _ => None
                | Raise e => Some e
                end |}.

(** One turn of the [while True] loop (lines 123-298).  Both [time.sleep]
    calls of lines 134 and 289 are inside the outer [try]. *)
Definition cycle (r : response) (f : frame) : run :=
  match r with
  | GetRaises =>
      let evs := [Logerr "Error connecting to the WeatherLink Live device."; LogerrException;
                  Sleep (PyInt 2)] in
      match time_sleep (PyInt 2) with
      | Ok _ => {| trace := evs; after := f; stopped := None |}
      | Raise _ => handler evs f
      end
  | Body json =>
      match parse json f with
      | (Ok _, f') =>
          let secs := PyFloat (poll_interval (self f')) in
          match time_sleep secs with
          | Ok _ => {| trace := [Yield (_packet f'); Sleep secs]; after := f'; stopped := None |}
          | Raise _ => handler [Yield (_packet f'); Sleep secs] f'
          end
      | (Raise _, f') => handler [] f'
      end
  end.

(** [genLoopPackets] run against the outcomes of its successive requests,
    for as long as no exception ends it. *)
Fixpoint genLoopPackets (rs : list response) (f : frame) : run :=
  match rs with
  | [] => {| trace := []; after := f; stopped := None |}
  | r :: rs' =>
      let turn := cycle r f in
      match stopped turn with
      | Some _ => turn
      | None =>
          let rest := genLoopPackets rs' (after turn) in
          {| trace := (trace turn ++ trace rest)%list;
             after := after rest;
             stopped := stopped rest |}
      end
  end.

(** The frame of a generator that has not run yet. *)
Definition start (w : WLL) : frame :=
  {| self := w; rain_count_size := None; _packet := ∅ |}.


(** ** Notions used in the statements *)

(** The packet after the pass-through of [fields] out of the record [c]. *)
Fixpoint copied (c : list (string * value)) (fields : list (string * string))
    (p : gmap string value) : gmap string value :=
  match fields with
  | [] => p
  | field :: rest =>
      copied c rest
        (match dict_get c (fst field) with
         | Some v => <[snd field := v]> p
         | None => p
         end)
  end.

(** The pass-through table the driver applies to a record of a given
    [data_structure_type]. *)
Definition passthrough (data_structure_type : value) : list (string * string) :=
  if py_eq data_structure_type (PyInt 1) then (iss_fields ++ iss_fields_after_rain)%list
  else if py_eq data_structure_type (PyInt 2) then leaf_soil_fields
  else if py_eq data_structure_type (PyInt 3) then bar_fields
  else if py_eq data_structure_type (PyInt 4) then inside_fields
  else [].

(** A number that [float()] accepts: a [float], or an [int] within the range
    of floats. *)
Definition is_number (v : value) : bool :=
  match v with
  | PyInt n =>
      match float_of_Z n with
      | S754_infinity _ => false
      | _ => true
      end
  | PyFloat _ => true
  | _ => false
  end.

(** The float of such a number. *)
Definition to_float (v : value) : float :=
  match v with
  | PyInt n => float_of_Z n
  | PyFloat x => x
  | _ => zero
  end.



(** A stored counter is [None] or a number. *)
Definition counter (v : value) : bool :=
  match v with
  | PyNone => true
  | _ => is_number v
  end.


Definition number_lt (a b : number) : Prop := number_ltb a b = true.



(** The storm-delta rule as the specification words it, on numbers: the
    difference is the float difference of the two totals. *)
Definition spec_delta (w : WLL) (total start : value) : value :=
  match last_rain_storm w, last_rain_storm_start_at w with
  | PyNone, _ | _, PyNone => PyFloat zero
  | total0, start0 =>
      if py_eq start start0
      then
        match py_le total0 total with
        | Ok true => PyFloat (fsub (to_float total) (to_float total0))
        | _ => PyFloat zero
        end
      else total
  end.



(** The stored pair is absent as a whole or present as a whole. *)
Definition both_absent (w : WLL) : Prop :=
  last_rain_storm w = PyNone /\ last_rain_storm_start_at w = PyNone.

Definition both_present (w : WLL) : Prop :=
  last_rain_storm w <> PyNone /\ last_rain_storm_start_at w <> PyNone.

Definition invariant (w : WLL) : Prop := both_absent w \/ both_present w.

(** The record does not carry a null [rain_storm] or [rain_storm_start_at]. *)
Definition storm_not_null (condition : value) : bool :=
  match condition with
  | PyDict c =>
      match dict_get c "rain_storm" with
      | Some PyNone => false
      | _ => true
      end &&
      match dict_get c "rain_storm_start_at" with
      | Some PyNone => false
      | _ => true
      end
  | _ => true
  end.

(** The records of a response, as the [for] loop of the driver meets them;
    none when the loop is not reached. *)
Definition records (r : response) : list value :=
  match r with
  | Body (Some data) =>
      match py_getitem data "data" with
      | Ok d =>
          match py_getitem d "ts", py_getitem d "conditions" with
          | Ok _, Ok conditions =>
              match py_iter conditions with
              | Ok items => items
              | Raise _ => []
              end
          | _, _ => []
          end
      | Raise _ => []
      end
  | _ => []
  end.

(** A record the rain bookkeeping applies to: an ISS record whose collector
    type lies between 1 and 4 and that carries both storm fields. *)
Definition precipitation_capable (condition : value) : bool :=
  match condition with
  | PyDict c =>
      match dict_get c "data_structure_type", dict_get c "rain_size",
            dict_get c "rain_storm", dict_get c "rain_storm_start_at" with
      | Some t, Some size, Some _, Some _ =>
          py_eq t (PyInt 1) &&
          match py_le (PyInt 1) size, py_le size (PyInt 4) with
          | Ok true, Ok true => true
          | _, _ => false
          end
      | _, _, _, _ => false
      end
  | _ => false
  end.

(** A [data_structure_type] value that is none of 1, 2, 3, 4. *)
Definition unknown_type (v : value) : Prop :=
  match as_num v with
  | Some (Finite q) => (~ q == 1 /\ ~ q == 2 /\ ~ q == 3 /\ ~ q == 4)%Q
  | _ => True
  end.

(** A property of the frame that a statement keeps. *)
Definition preserves {A : Type} (P : frame -> Prop) (m : M A) : Prop :=
  forall f : frame, P f -> P (snd (m f)).

(** The packets a run has yielded. *)
Fixpoint yielded (evs : list event) : list (gmap string value) :=
  match evs with
  | [] => []
  | Yield p :: evs' => p :: yielded evs'
  | _ :: evs' => yielded evs'
  end.

(** The entry under [key] of the packet a cycle yields: [None] when the
    cycle yields no packet, [Some None] when the packet has no such key. *)
Definition entry (outcome : run) (key : string) : option (option value) :=
  match yielded (trace outcome) with
  | [p] => Some (p !! key)
  | _ => None
  end.

(** A document [{"data": {"ts": ts, "conditions": [...]}}]. *)
Definition document (ts : value) (conditions : list value) : value :=
  PyDict [("data", PyDict [("ts", ts); ("conditions", PyList conditions)])].

(** A record of the given kind. *)
Definition record (data_structure_type : Z) (fields : list (string * value)) : value :=
  PyDict (("data_structure_type", PyInt data_structure_type) :: fields).

(** An ISS record of a 0.01 inch collector with a storm reading. *)
Definition storm_record (total start : value) : value :=
  record 1 [("temp", PyFloat (literal 723 10)); ("rain_size", PyInt 1);
            ("rain_storm", total); ("rain_storm_start_at", start)].

(** A driver with a poll interval of 10 seconds that has seen a 0.01 inch
    collector and stored the reading [(total, start)]. *)
Definition stored (total start : value) : frame :=
  {| self := {| poll_interval := float_of_Z 10; last_rain_storm := total;
                last_rain_storm_start_at := start |};
     rain_count_size := Some (literal 1 100);
     _packet := ∅ |}.

(** The configured interval is [x]; it is never assigned. *)
Definition polls (x : float) (f : frame) : Prop := poll_interval (self f) = x.

(** Every pair (field of a record, key of the packet) the driver has: the
    pass-through tables and the two fields the rain block reads to write
    [rainRate] and [rain]. *)
Definition sources : list (string * string) :=
  (iss_fields ++ [("rain_rate_last", "rainRate"); ("rain_storm", "rain")] ++
   iss_fields_after_rain ++ leaf_soil_fields ++ bar_fields ++ inside_fields)%list.

(** The number of sleeps in a run. *)
Fixpoint sleeps (evs : list event) : nat :=
  match evs with
  | [] => 0
  | Sleep _ :: evs' => S (sleeps evs')
  | _ :: evs' => sleeps evs'
  end.

(** The increments the storm rule emits for successive readings
    [(total, start)], each reading being stored in turn. *)
Fixpoint deltas (readings : list (value * value)) (f : frame) : result (list value) * frame :=
  match readings with
  | [] => (Ok [], f)
  | (total, start) :: rest =>
      match storm_count total start f with
      | (Ok d, f') =>
          match deltas rest f' with
          | (Ok ds, f'') => (Ok (d :: ds), f'')
          | (Raise e, f'') => (Raise e, f'')
          end
      | (Raise e, f') => (Raise e, f')
      end
  end.

(** The exact value of an increment. *)
Definition worth (d : value) : Q :=
  match as_num d with
  | Some (Finite q) => q
  | _ => 0%Q
  end.

(** The sum of the increments, in exact arithmetic. *)
Fixpoint total_of (ds : list value) : Q :=
  match ds with
  | [] => 0%Q
  | d :: ds' => (worth d + total_of ds')%Q
  end.

(** Successive totals never decrease. *)
Fixpoint non_decreasing (totals : list Z) : Prop :=
  match totals with
  | a :: (b :: _) as rest => (a <= b)%Z /\ non_decreasing rest
  | _ => True
  end.

(** A count that a float holds exactly: an integer from 0 up to, but not
    including, 2^53. *)
Definition count (n : Z) : Prop := (0 <= n < 2 ^ 53)%Z.

(** The readings of one storm, whose start is [start]: a series of integer
    totals. *)
Definition readings_of (start : value) (totals : list Z) : list (value * value) :=
  map (fun total => (PyInt total, start)) totals.

(** [p * 2^k] on mantissas, for [k] from 0 on. *)
Definition shl (p : positive) (k : Z) : positive :=
  match k with
  | Zpos k' => Pos.iter xO p k'
  | _ => p
  end.

(** The float whose value is the positive integer [q], of at most 53
    digits. *)
Definition canon (s : bool) (q : positive) : float :=
  S754_finite s (shl q (53 - Zpos (digits2_pos q))) (Zpos (digits2_pos q) - 53).

(** The poll interval is one [time.sleep] accepts. *)
Definition sleeps_well (w : WLL) : Prop :=
  time_sleep (PyFloat (poll_interval w)) = Ok tt.

(** ** The constructor, [hardware_name] and [loader] *)

(** [str(v)], as the [%s] of a format string applies it.  The text Python
    prints for numbers, lists and dicts is the parameter [str_of]. *)
Definition py_str (str_of : value -> string) (v : value) : string :=
  match v with
  | PyStr s => s
  | PyNone => "None"
  | PyBool b => if b then "True" else "False"
  | _ => str_of v
  end.

(** All the attributes [WLL.__init__] assigns; [driver] holds the ones
    [genLoopPackets] works with. *)
Record instance : Type := mkInstance {
  host : value;
  service_url : string;
  hardware : value;
  driver : WLL
}.

(** [WLL.__init__] on the keyword arguments [stn_dict] (lines 97-114): what it
    logs, and the instance or the exception of [float()].  The test of line
    108 compares a float with the int 10. *)
Definition WLL__init__ (str_of : value -> string) (stn_dict : list (string * value)) :
    list event * result instance :=
  let host := default PyNone (dict_get stn_dict "host") in
  let host_log :=
    if is_not_None host then []
    else [Logerr "The WeatherLink Live hostname or ip address is required."] in
  let service_url := "http://" ++ py_str str_of host ++ ":80/v1/current_conditions" in
  match py_float (default (PyInt 10) (dict_get stn_dict "poll_interval")) with
  | Raise e => (host_log, Raise e)
  | Ok poll_interval =>
      ((host_log ++
        (if number_ltb (number_of_float poll_interval) (Finite 10)
         then [Logerr "The `poll_interval` parameter should be 10 or greater."]
         else []))%list,
       Ok {| host := host;
             service_url := service_url;
             hardware := default PyNone (dict_get stn_dict "hardware");
             driver := {| poll_interval := poll_interval;
                          last_rain_storm := PyNone;
                          last_rain_storm_start_at := PyNone |} |})
  end.

(** [WLL.hardware_name] (lines 116-117) *)
Definition hardware_name (i : instance) : value := hardware i.

(** [loader(config_dict, engine)] (lines 73-74): the ['WLL'] section is
    unpacked into the keyword arguments of [WLL]; only a [dict] can be
    unpacked, and a key [self] would clash with the instance argument of
    [__init__]. *)
Definition loader (str_of : value -> string) (config_dict engine : value) :
    list event * result instance :=
  match py_getitem config_dict "WLL" with
  | Ok (PyDict stn_dict) =>
      match dict_get stn_dict "self" with
      | Some _ => ([], Raise TypeError)
      | None => WLL__init__ str_of stn_dict
      end
  | Ok _ => ([], Raise TypeError)
  | Raise e => ([], Raise e)
  end.

(** ** Notions used in the further properties *)

(** The request got a response. *)
Definition answered (r : response) : bool :=
  match r with
  | GetRaises => false
  | Body _ => true
  end.

(** A sleep is asked to last 2 seconds or [x] seconds. *)
Definition sleeps_2_or (x : float) (ev : event) : Prop :=
  match ev with
  | Sleep s => s = PyInt 2 \/ s = PyFloat x
  | _ => True
  end.

(** The keys of the packet the driver can write. *)
Definition packet_keys : list string :=
  "dateTime" :: "usUnits" :: map snd sources.

(** The collector type is a number between 1 and 4 that is none of 1, 2, 3
    and 4. *)
Definition between_sizes (size : value) : Prop :=
  exists q, as_num size = Some (Finite q) /\
    (1 <= q /\ q <= 4 /\ ~ q == 1 /\ ~ q == 2 /\ ~ q == 3 /\ ~ q == 4)%Q.

(** The collector type is a number below 1 or above 4. *)
Definition out_of_range (size : value) : Prop :=
  exists q, as_num size = Some (Finite q) /\ (q < 1 \/ 4 < q)%Q.

(** A number whose float is finite. *)
Definition finite_number (v : value) : bool :=
  is_number v && finite (to_float v).


(** ** Floats that hold integers *)

#[local] Arguments float_of_Z : simpl never.
#[local] Arguments fmul : simpl never.
#[local] Arguments fsub : simpl never.
#[local] Arguments fdiv : simpl never.
#[local] Arguments literal : simpl never.
#[local] Arguments time_sleep : simpl never.

(** The library iterates a shift its own way. *)
Lemma iter_pos_iter {A : Type} (g : A -> A) (n : positive) (x : A) :
  SpecFloat.iter_pos g n x = Pos.iter g x n.
Proof.
  revert x. induction n as [n IH|n IH|]; intros x; simpl.
  - rewrite !IH. by rewrite <- !Pos.iter_swap.
  - by rewrite !IH.
  - done.
Qed.

Lemma digits2_shift (k p : positive) :
  digits2_pos (Pos.iter xO p k) = (digits2_pos p + k)%positive.
Proof.
  induction k as [|k IH] using Pos.peano_ind.
  - simpl. lia.
  - rewrite Pos.iter_succ. simpl. rewrite IH. lia.
Qed.

(** Shifting out zero bits loses nothing. *)
Lemma shr_shift (k p : positive) :
  SpecFloat.iter_pos shr_1 k
    {| shr_m := Zpos (Pos.iter xO p k); shr_r := false; shr_s := false |}
  = {| shr_m := Zpos p; shr_r := false; shr_s := false |}.
Proof.
  rewrite iter_pos_iter. induction k as [|k IH] using Pos.peano_ind.
  - done.
  - rewrite Pos.iter_succ, Pos.iter_succ, <- Pos.iter_swap. simpl. exact IH.
Qed.

(** A mantissa of 53 digits with an exponent in range is a float as it
    stands. *)
Lemma round_aux_53 (s : bool) (m : positive) (e : Z) :
  digits2_pos m = 53%positive -> (-1074 <= e <= 971)%Z ->
  binary_round_aux 53 1024 s (Zpos m) e loc_Exact = S754_finite s m e.
Proof.
  intros Hd He. unfold binary_round_aux, shr_fexp, Zdigits2, fexp, emin. rewrite Hd.
  replace (Z.max (53 + e - 53) (3 - 1024 - 53) - e)%Z with 0%Z by lia.
  cbn [shr shr_record_of_loc shr_m loc_of_shr_record round_nearest_even Zdigits2].
  rewrite Hd.
  replace (Z.max (53 + e - 53) (3 - 1024 - 53) - e)%Z with 0%Z by lia.
  cbn [shr shr_record_of_loc shr_m].
  destruct (Z.leb_spec e (1024 - 53)); [done|lia].
Qed.

Lemma shl_value (p : positive) (k : Z) :
  (0 <= k)%Z -> Zpos (shl p k) = (Zpos p * 2 ^ k)%Z.
Proof.
  intros Hk. destruct k as [|k|k]; simpl; [lia| |lia].
  change (Pos.iter xO p k) with (shift_pos k p). rewrite shift_pos_correct.
  rewrite Z.pow_pos_fold. lia.
Qed.

Lemma shl_digits (p : positive) (k : Z) :
  (0 <= k)%Z -> Zpos (digits2_pos (shl p k)) = (Zpos (digits2_pos p) + k)%Z.
Proof.
  intros Hk. destruct k as [|k|k]; simpl; [lia| |lia]. rewrite digits2_shift. lia.
Qed.

Lemma shl_shl (p : positive) (a b : Z) :
  (0 <= a)%Z -> (0 <= b)%Z -> shl (shl p a) b = shl p (a + b).
Proof.
  intros Ha Hb. apply Pos2Z.inj. rewrite !shl_value by lia.
  rewrite Z.pow_add_r by lia. lia.
Qed.

Lemma shl_inv (r q : positive) (j : Z) :
  (0 <= j)%Z -> Zpos r = (Zpos q * 2 ^ j)%Z -> r = shl q j.
Proof. intros Hj H. apply Pos2Z.inj. by rewrite shl_value. Qed.

Lemma digits2_lower (p : positive) : (2 ^ (Zpos (digits2_pos p) - 1) <= Zpos p)%Z.
Proof.
  induction p as [p IH|p IH|]; simpl; [| |lia].
  - rewrite Pos2Z.inj_succ. replace (Z.succ (Zpos (digits2_pos p)) - 1)%Z
      with (Z.succ (Zpos (digits2_pos p) - 1)) by lia.
    rewrite Z.pow_succ_r by lia. lia.
  - rewrite Pos2Z.inj_succ. replace (Z.succ (Zpos (digits2_pos p)) - 1)%Z
      with (Z.succ (Zpos (digits2_pos p) - 1)) by lia.
    rewrite Z.pow_succ_r by lia. lia.
Qed.

Lemma digits2_bound (p : positive) (n : Z) :
  (0 <= n)%Z -> (Zpos p < 2 ^ n)%Z -> (Zpos (digits2_pos p) <= n)%Z.
Proof.
  intros Hn Hp. pose proof (digits2_lower p) as Hl.
  destruct (Z_le_gt_dec (Zpos (digits2_pos p)) n) as [|Hgt]; [done|].
  assert (2 ^ n <= 2 ^ (Zpos (digits2_pos p) - 1))%Z by (apply Z.pow_le_mono_r; lia).
  lia.
Qed.

(** Rounding [q * 2^j * 2^-j]: nothing is lost, whatever the shift. *)
Lemma round_exact (s : bool) (q r : positive) (j : Z) :
  (Zpos (digits2_pos q) <= 53)%Z ->
  (0 <= j)%Z -> Zpos r = (Zpos q * 2 ^ j)%Z ->
  binary_round 53 1024 s r (- j) = canon s q.
Proof.
  intros Hd Hj Hr. apply shl_inv in Hr; [|done]. subst r.
  set (d := Zpos (digits2_pos q)) in *.
  assert (1 <= d)%Z as Hd1 by (unfold d; lia).
  unfold binary_round, canon. fold d.
  rewrite shl_digits by done. fold d.
  unfold fexp, emin.
  replace (Z.max (d + j + - j - 53) (3 - 1024 - 53))%Z with (d - 53)%Z by lia.
  unfold shl_align.
  destruct (d - 53 - - j)%Z as [|k|k] eqn:Ek.
  - replace (53 - d)%Z with j by lia. replace (- j)%Z with (d - 53)%Z by lia.
    apply round_aux_53; [|lia].
    apply Pos2Z.inj. rewrite shl_digits by done. fold d. lia.
  - (* the mantissa is too long: its low bits are zero *)
    assert (shl q j = Pos.iter xO (shl q (53 - d)) k) as ->.
    { change (Pos.iter xO (shl q (53 - d)) k) with (shl (shl q (53 - d)) (Zpos k)).
      rewrite shl_shl by lia. f_equal. lia. }
    assert (Zpos (digits2_pos (shl q (53 - d))) = 53)%Z as H53
      by (rewrite shl_digits by lia; fold d; lia).
    unfold binary_round_aux, shr_fexp, Zdigits2, fexp, emin.
    rewrite digits2_shift, Pos2Z.inj_add, H53.
    replace (Z.max (53 + Zpos k + - j - 53) (3 - 1024 - 53) - - j)%Z with (Zpos k) by lia.
    cbn [shr shr_record_of_loc]. rewrite shr_shift.
    cbn [shr_m loc_of_shr_record round_nearest_even]. rewrite H53.
    replace (Z.max (53 + (- j + Zpos k) - 53) (3 - 1024 - 53) - (- j + Zpos k))%Z
      with 0%Z by lia.
    cbn [shr shr_m shr_record_of_loc].
    replace (- j + Zpos k)%Z with (d - 53)%Z by lia.
    destruct (Z.leb_spec (d - 53) (1024 - 53)); [done|lia].
  - change (Pos.iter xO (shl q j) k) with (shl (shl q j) (Zpos k)).
    rewrite shl_shl by lia. replace (j + Zpos k)%Z with (53 - d)%Z by lia.
    apply round_aux_53; [|lia].
    apply Pos2Z.inj. rewrite shl_digits by lia. fold d. lia.
Qed.

Lemma float_of_pos (p : positive) :
  (Zpos p < 2 ^ 53)%Z -> float_of_Z (Zpos p) = canon false p.
Proof.
  intros Hp. unfold float_of_Z, binary_normalize.
  apply (round_exact false p p 0); [by apply digits2_bound| done | lia].
Qed.

Lemma shl_align_fst (m : positive) (e e' : Z) :
  (e' <= e)%Z -> fst (shl_align m e e') = shl m (e - e').
Proof.
  intros He. unfold shl_align.
  destruct (e' - e)%Z as [|k|k] eqn:Ek; simpl.
  - by replace (e - e')%Z with 0%Z by lia.
  - lia.
  - by replace (e - e')%Z with (Zpos k) by lia.
Qed.

(** The float difference of two counts is the float of their difference:
    nothing is rounded. *)
Lemma float_of_Z_sub (a b : Z) :
  (0 <= b <= a)%Z -> (a < 2 ^ 53)%Z ->
  fsub (float_of_Z a) (float_of_Z b) = float_of_Z (a - b).
Proof.
  intros [Hb Hab] Ha.
  destruct b as [|pb|pb]; [|clear Hb|lia].
  { rewrite Z.sub_0_r. destruct a as [|pa|pa]; [done| |lia].
    rewrite float_of_pos by done. done. }
  destruct a as [|pa|pa]; [lia| |lia].
  rewrite (float_of_pos pa), (float_of_pos pb) by lia.
  assert (Zpos (digits2_pos pa) <= 53)%Z as Hda by (by apply digits2_bound).
  assert (Zpos (digits2_pos pb) <= 53)%Z as Hdb by (apply digits2_bound; lia).
  unfold canon, fsub, SFsub.
  set (ea := (Zpos (digits2_pos pa) - 53)%Z).
  set (eb := (Zpos (digits2_pos pb) - 53)%Z).
  set (ez := Z.min ea eb).
  rewrite !shl_align_fst by lia.
  cbn [cond_Zopp].
  assert (0 <= - ez)%Z as Hez by lia.
  assert (Zpos (shl (shl pa (53 - Zpos (digits2_pos pa))) (ea - ez)) = Zpos pa * 2 ^ (- ez))%Z
    as -> by (rewrite shl_shl, shl_value by lia; f_equal; f_equal; lia).
  assert (Zpos (shl (shl pb (53 - Zpos (digits2_pos pb))) (eb - ez)) = Zpos pb * 2 ^ (- ez))%Z
    as -> by (rewrite shl_shl, shl_value by lia; f_equal; f_equal; lia).
  rewrite <- Z.mul_sub_distr_r.
  destruct (Zpos pa - Zpos pb)%Z as [|q|q] eqn:Eq; [done| |lia].
  pose proof (Z.pow_pos_nonneg 2 (- ez) ltac:(lia) Hez) as Hpow.
  destruct (Zpos q * 2 ^ (- ez))%Z as [|r|r] eqn:Er; [lia| |lia].
  unfold binary_normalize.
  assert (Zpos (digits2_pos q) <= 53)%Z as Hdq by (apply digits2_bound; lia).
  replace ez with (- (- ez))%Z at 1 by lia.
  rewrite (round_exact false q r (- ez)) by done.
  symmetry. apply float_of_pos. lia.
Qed.

(** The float of a count is finite and worth the count. *)
Lemma float_of_count (n : Z) :
  count n ->
  float_of_int n = Ok (float_of_Z n) /\
  exists q, number_of_float (float_of_Z n) = Finite q /\ (q == inject_Z n)%Q.
Proof.
  intros [H0 Hn]. unfold float_of_int.
  destruct n as [|p|p]; [|clear H0|lia].
  { split; [done|]. by exists 0%Q. }
  rewrite float_of_pos by done. split; [done|].
  pose proof (digits2_bound p 53 ltac:(lia) Hn) as Hd.
  unfold canon, number_of_float. cbn [cond_Zopp]. eexists. split; [done|].
  unfold dyadic.
  destruct (Zpos (digits2_pos p) - 53)%Z as [|k|k] eqn:Ek; [|lia|].
  - replace (53 - Zpos (digits2_pos p))%Z with 0%Z by lia. simpl.
    unfold Qeq, inject_Z. simpl. lia.
  - rewrite shl_value by lia.
    replace (53 - Zpos (digits2_pos p))%Z with (Zpos k) by lia.
    unfold Qeq, inject_Z. cbn [Qnum Qden]. rewrite Pos2Z.inj_pow. lia.
Qed.

(** ** Running the statements *)

#[local] Arguments storm_count : simpl never.

(** Unfolds the plumbing of [M] and computes what is concrete. *)
Ltac run :=
  unfold mbind, M_bind, mret, M_ret, lift, packet_new, packet_update,
    set_rain_count_size, get_rain_count_size, get_self, set_last, py_ge;
  simpl.

(** Proves that a key is none of the targets of a table. *)
Ltac not_in :=
  simpl; let H := fresh in
  intros H; repeat (destruct H as [H|H]; [discriminate H|]); exact H.

Lemma bind_run {A B : Type} (m : M A) (k : A -> M B) (f : frame) :
  (m ≫= k) f =
  match m f with
  | (Ok a, f') => k a f'
  | (Raise e, f') => (Raise e, f')
  end.
Proof. reflexivity. Qed.

Lemma with_packet_same (f : frame) : with_packet f (_packet f) = f.
Proof. by destruct f. Qed.

Lemma with_packet_twice (f : frame) (p q : gmap string value) :
  with_packet (with_packet f p) q = with_packet f q.
Proof. reflexivity. Qed.

(** The pass-through of a table never raises and only writes the packet. *)
Lemma for_each_copy (c : list (string * value)) (fields : list (string * string)) (f : frame) :
  for_each fields (copy c) f = (Ok tt, with_packet f (copied c fields (_packet f))).
Proof.
  revert f. induction fields as [|field rest IH]; intros f; simpl.
  - by rewrite with_packet_same.
  - rewrite bind_run. unfold copy.
    destruct (dict_get c field.1) as [v|]; simpl.
    + unfold packet_update. rewrite IH. by rewrite with_packet_twice.
    + unfold mret, M_ret. apply IH.
Qed.

Lemma copied_app (c : list (string * value)) (l1 l2 : list (string * string))
    (p : gmap string value) :
  copied c (l1 ++ l2) p = copied c l2 (copied c l1 p).
Proof.
  revert p. induction l1 as [|field rest IH]; intros p; simpl; [done|]. apply IH.
Qed.

(** A key that is the target of no field of the table present in the record
    keeps its entry. *)
Lemma copied_untouched (c : list (string * value)) (fields : list (string * string))
    (p : gmap string value) (key : string) :
  (forall src, In (src, key) fields -> dict_get c src = None) ->
  copied c fields p !! key = p !! key.
Proof.
  revert p. induction fields as [|[src dst] rest IH]; intros p H; simpl; [done|].
  rewrite IH by (intros s Hs; apply H; by right).
  destruct (dict_get c src) as [v|] eqn:E; [|done].
  destruct (decide (dst = key)) as [->|Hne].
  - rewrite (H src) in E by (by left). discriminate.
  - by rewrite lookup_insert_ne.
Qed.

Lemma copied_other (c : list (string * value)) (fields : list (string * string))
    (p : gmap string value) (key : string) :
  ~ In key (map snd fields) ->
  copied c fields p !! key = p !! key.
Proof.
  intros H. apply copied_untouched. intros src Hin. exfalso. apply H.
  apply in_map_iff. by exists (src, key).
Qed.

(** The last field of the table that is present in the record and targets
    [key] decides the entry under [key]. *)
Lemma copied_last (c : list (string * value)) (l1 l2 : list (string * string))
    (src key : string) (v : value) (p : gmap string value) :
  dict_get c src = Some v ->
  (forall src', In (src', key) l2 -> dict_get c src' = None) ->
  copied c (l1 ++ (src, key) :: l2) p !! key = Some v.
Proof.
  intros Hv Hlater. rewrite copied_app. simpl. rewrite Hv.
  rewrite copied_untouched by done. apply lookup_insert_eq.
Qed.

(** ** Numbers *)

Lemma none_or_not (v : value) : v = PyNone \/ v <> PyNone.
Proof. destruct v; by (left + right). Qed.

Lemma is_number_float (v : value) :
  is_number v = true -> py_float v = Ok (to_float v).
Proof.
  destruct v as [| |n| | | |]; try discriminate; [|done].
  unfold is_number, py_float, float_of_int, to_float. by destruct (float_of_Z n).
Qed.


Lemma is_number_as_num (v : value) :
  is_number v = true -> exists a, as_num v = Some a.
Proof. destruct v; try discriminate; by eexists. Qed.

Lemma py_le_numbers (a b : value) (p q : number) :
  as_num a = Some p -> as_num b = Some q -> py_le a b = Ok (number_leb p q).
Proof. destruct a, b; simpl; intros Ha Hb; try discriminate; by simplify_eq. Qed.


(** What is equal to an [int] is a number worth that [int]. *)
Lemma py_eq_int (v : value) (k : Z) :
  py_eq v (PyInt k) = true ->
  exists q, as_num v = Some (Finite q) /\ (q == inject_Z k)%Q.
Proof.
  destruct v as [|b|n|x| | |]; simpl; try discriminate.
  - intros H%Qeq_bool_iff. by eexists.
  - intros H%Qeq_bool_iff. by eexists.
  - destruct (number_of_float x); simpl; try discriminate.
    intros H%Qeq_bool_iff. by eexists.
Qed.



Lemma spec_delta_absent (w : WLL) (total start : value) :
  last_rain_storm w = PyNone \/ last_rain_storm_start_at w = PyNone ->
  spec_delta w total start = PyFloat zero.
Proof.
  unfold spec_delta. intros [-> | ->]; [done|]. by destruct (last_rain_storm w).
Qed.

Lemma spec_delta_present (w : WLL) (total start : value) :
  last_rain_storm w <> PyNone -> last_rain_storm_start_at w <> PyNone ->
  spec_delta w total start =
  if py_eq start (last_rain_storm_start_at w)
  then
    match py_le (last_rain_storm w) total with
    | Ok true => PyFloat (fsub (to_float total) (to_float (last_rain_storm w)))
    | _ => PyFloat zero
    end
  else total.
Proof.
  unfold spec_delta. intros H1 H2.
  by destruct (last_rain_storm w), (last_rain_storm_start_at w).
Qed.


(** On numeric readings the increment is the one of the specification, and
    the reading is stored. *)
Lemma storm_count_numeric (f : frame) (total start : value) :
  is_number total = true ->
  counter (last_rain_storm (self f)) = true ->
  storm_count total start f =
  (Ok (spec_delta (self f) total start), with_last f total start).
Proof.
  intros Ht Hc. unfold storm_count. rewrite bind_run. unfold get_self at 1.
  destruct (is_not_None (last_rain_storm (self f)) &&
            is_not_None (last_rain_storm_start_at (self f))) eqn:E.
  - apply andb_prop in E as [E1 E2].
    rewrite spec_delta_present
      by (intros H; rewrite H in *; discriminate).
    assert (is_number (last_rain_storm (self f)) = true) as Hn.
    { unfold counter in Hc. by destruct (last_rain_storm (self f)). }
    destruct (is_number_as_num _ Ht) as [a Ha].
    destruct (is_number_as_num _ Hn) as [b Hb].
    destruct (py_eq start _); simpl; [|by run].
    run. rewrite (py_le_numbers _ _ b a) by done. simpl.
    destruct (number_leb b a); simpl; [|done].
    rewrite (is_number_float total), (is_number_float (last_rain_storm (self f))) by done.
    done.
  - rewrite spec_delta_absent; [by run|].
    apply andb_false_iff in E as [E|E]; [left|right].
    + by destruct (last_rain_storm (self f)).
    + by destruct (last_rain_storm_start_at (self f)).
Qed.





(** ** The storm counter and the rain fields *)

#[local] Arguments copied : simpl never.

Lemma yielded_app (evs evs' : list event) :
  yielded (evs ++ evs') = (yielded evs ++ yielded evs')%list.
Proof.
  induction evs as [|ev evs IH]; [done|]. destruct ev; simpl; by rewrite ?IH.
Qed.

(** The handler yields nothing and keeps the frame. *)
Lemma handler_yields (evs : list event) (f : frame) :
  yielded (trace (handler evs f)) = yielded evs /\ after (handler evs f) = f.
Proof. unfold handler. cbn [trace after]. rewrite yielded_app. simpl. by rewrite app_nil_r. Qed.

(** A cycle whose parsing part succeeds yields the packet, once, whatever
    becomes of the sleep that follows. *)
Lemma cycle_parsed (json : option value) (f f' : frame) :
  parse json f = (Ok tt, f') ->
  yielded (trace (cycle (Body json) f)) = [_packet f'] /\ after (cycle (Body json) f) = f'.
Proof.
  intros H. unfold cycle. rewrite H.
  destruct (time_sleep _); [done|]. apply handler_yields.
Qed.

Lemma cycle_failed (json : option value) (f f' : frame) (e : exn) :
  parse json f = (Raise e, f') -> cycle (Body json) f = handler [] f'.
Proof. intros H. unfold cycle. by rewrite H. Qed.







(** ** Sums of increments within one storm *)

Lemma last_cons_default {A : Type} (a d : A) (l : list A) :
  List.last (a :: l) d = List.last l a.
Proof.
  revert a d. induction l as [|b l IH]; intros a d; [done|].
  change (List.last (a :: b :: l) d) with (List.last (b :: l) d).
  by rewrite !IH.
Qed.

Lemma count_is_number (n : Z) : count n -> is_number (PyInt n) = true.
Proof.
  intros [H _]%float_of_count. unfold float_of_int in H. unfold is_number.
  by destruct (float_of_Z n).
Qed.

Lemma count_worth (n : Z) : count n -> (worth (PyFloat (float_of_Z n)) == inject_Z n)%Q.
Proof.
  intros [_ (q & Hq & E)]%float_of_count. unfold worth, as_num. by rewrite Hq.
Qed.

Lemma py_le_int (a b : Z) : py_le (PyInt a) (PyInt b) = Ok (a <=? b)%Z.
Proof.
  simpl. unfold Qle_bool, inject_Z. simpl. by rewrite !Z.mul_1_r.
Qed.

(** The increment of a count read in the stored storm. *)
Lemma storm_count_count (f : frame) (total0 total : Z) (start : value) :
  last_rain_storm (self f) = PyInt total0 ->
  last_rain_storm_start_at (self f) = start ->
  start <> PyNone -> py_eq start start = true ->
  count total0 -> count total ->
  storm_count (PyInt total) start f =
  (Ok (PyFloat (if (total0 <=? total)%Z then float_of_Z (total - total0) else zero)),
   with_last f (PyInt total) start).
Proof.
  intros Ht Hs Hnone Hrefl H0 H1.
  rewrite storm_count_numeric
    by (try rewrite Ht; unfold counter; by apply count_is_number).
  rewrite spec_delta_present by (rewrite ?Ht, ?Hs; done).
  rewrite Ht, Hs, Hrefl, py_le_int.
  destruct (Z.leb_spec total0 total) as [Hle|Hlt]; [|done].
  cbn [to_float]. rewrite float_of_Z_sub; [done| |]; unfold count in *; lia.
Qed.

(** From a stored total that the readings continue upwards, the increments
    add up to the distance from the stored total to the last one. *)
Lemma deltas_upwards (totals : list Z) (f : frame) (total0 : Z) (start : value) :
  last_rain_storm (self f) = PyInt total0 ->
  last_rain_storm_start_at (self f) = start ->
  start <> PyNone -> py_eq start start = true ->
  count total0 -> Forall count totals ->
  non_decreasing (total0 :: totals) ->
  exists (ds : list value) (f' : frame),
    deltas (readings_of start totals) f = (Ok ds, f') /\
    (total_of ds == inject_Z (List.last totals total0 - total0))%Q.
Proof.
  revert f total0.
  induction totals as [|total rest IH]; intros f total0 Ht Hs Hnone Hrefl H0 Hall Hmono.
  - exists [], f. split; [done|]. simpl. by rewrite Z.sub_diag.
  - apply Forall_cons in Hall as [H1 Hall]. destruct Hmono as [Hle Hmono].
    destruct (IH (with_last f (PyInt total) start) total) as (ds & f' & Hrun & Hsum);
      try done.
    eexists (_ :: ds), f'. cbn [readings_of map deltas]. fold (readings_of start rest).
    rewrite (storm_count_count f total0 total start) by done. rewrite Hrun.
    split; [done|].
    apply Z.leb_le in Hle. rewrite Hle.
    cbn [total_of]. rewrite Hsum, count_worth by (unfold count in *; lia).
    rewrite last_cons_default. rewrite <- inject_Z_plus. f_equiv. lia.
Qed.

(** C4 (as the driver has it). For integer totals from 0 up to 2^53 read in
    the stored storm (a start that is equal to itself and not null), that
    never decrease, the increments add up, in exact arithmetic, to the last
    total minus the smaller of the stored total and the first total: to
    [last - first] when the first total does not exceed the stored one, and
    to [last - stored] when the readings continue upwards from the stored
    total. *)
Theorem C4_sum_of_deltas (f : frame) (total0 first : Z) (start : value) (rest : list Z) :
  last_rain_storm (self f) = PyInt total0 ->
  last_rain_storm_start_at (self f) = start ->
  start <> PyNone -> py_eq start start = true ->
  count total0 -> Forall count (first :: rest) ->
  non_decreasing (first :: rest) ->
  exists (ds : list value) (f' : frame),
    deltas (readings_of start (first :: rest)) f = (Ok ds, f') /\
    (total_of ds == inject_Z (List.last rest first - Z.min total0 first))%Q.
Proof.
  intros Ht Hs Hnone Hrefl H0 Hall Hmono.
  destruct (Z_lt_le_dec first total0) as [Hlt|Hle].
  - (* the first total is below the stored one: its increment is 0 *)
    pose proof Hall as Hall'. apply Forall_cons in Hall' as [H1 Hrest].
    destruct (deltas_upwards rest (with_last f (PyInt first) start) first start)
      as (ds & f' & Hrun & Hsum); try done.
    eexists (_ :: ds), f'. cbn [readings_of map deltas]. fold (readings_of start rest).
    rewrite (storm_count_count f total0 first start) by done. rewrite Hrun.
    split; [done|].
    assert ((total0 <=? first)%Z = false) as -> by (apply Z.leb_gt; lia).
    cbn [total_of]. rewrite Hsum. rewrite Z.min_r by lia.
    unfold worth, zero. simpl. lra.
  - destruct (deltas_upwards (first :: rest) f total0 start)
      as (ds & f' & Hrun & Hsum); try done.
    exists ds, f'. split; [done|]. rewrite Hsum.
    rewrite last_cons_default. by rewrite Z.min_l by lia.
Qed.

(** The reading of the specification: starting without a stored pair, the
    first reading only sets the baseline, and the increments of a storm add
    up to the last total minus the first one. *)
Lemma deltas_fresh (f : frame) (first : Z) (start : value) (rest : list Z) :
  both_absent (self f) ->
  start <> PyNone -> py_eq start start = true ->
  Forall count (first :: rest) ->
  non_decreasing (first :: rest) ->
  exists (ds : list value) (f' : frame),
    deltas (readings_of start (first :: rest)) f = (Ok ds, f') /\
    (total_of ds == inject_Z (List.last rest first - first))%Q.
Proof.
  intros [Ht Hs] Hnone Hrefl Hall Hmono.
  apply Forall_cons in Hall as [H1 Hrest].
  destruct (deltas_upwards rest (with_last f (PyInt first) start) first start)
    as (ds & f' & Hrun & Hsum); try done.
  eexists (_ :: ds), f'. cbn [readings_of map deltas]. fold (readings_of start rest).
  rewrite storm_count_numeric
    by (try rewrite Ht; unfold counter; by try apply count_is_number).
  rewrite Hrun. split; [done|].
  rewrite spec_delta_absent by (by left).
  cbn [total_of]. rewrite Hsum. unfold worth, zero. simpl. lra.
Qed.


(** ** Records of an unknown kind *)

Lemma for_each_app {A : Type} (l1 l2 : list A) (body : A -> M unit) (f : frame) :
  for_each (l1 ++ l2) body f =
  match for_each l1 body f with
  | (Ok _, f') => for_each l2 body f'
  | (Raise e, f') => (Raise e, f')
  end.
Proof.
  revert f. induction l1 as [|x l1 IH]; intros f; [done|].
  simpl. rewrite !bind_run. destruct (body x f) as [[[]|e] f']; [apply IH|done].
Qed.

Lemma unknown_type_eq (v : value) (k : Z) :
  unknown_type v ->
  (k = 1 \/ k = 2 \/ k = 3 \/ k = 4)%Z ->
  py_eq v (PyInt k) = false.
Proof.
  unfold unknown_type. intros Hv Hk.
  destruct (py_eq v (PyInt k)) eqn:E; [|done].
  apply py_eq_int in E as (q & Hq & E). rewrite Hq in Hv.
  destruct Hv as (H1 & H2 & H3 & H4).
  destruct Hk as [-> | [-> | [-> | ->]]]; done.
Qed.

(** C8. A record whose [data_structure_type] is none of 1, 2, 3, 4 is
    processed without an exception and changes neither the packet nor the
    stored state; the records before and after it are processed as if it
    were not there, and the cycle on the document is the cycle on the
    document without it. *)
Theorem C8_unknown_type_ignored (condition v : value) :
  py_getitem condition "data_structure_type" = Ok v ->
  unknown_type v ->
  (forall f : frame, process_condition condition f = (Ok tt, f)) /\
  (forall (before after : list value) (f : frame),
     for_each (before ++ condition :: after) process_condition f =
     for_each (before ++ after) process_condition f) /\
  (forall (ts : value) (before after : list value) (f : frame),
     cycle (Body (Some (document ts (before ++ condition :: after)))) f =
     cycle (Body (Some (document ts (before ++ after)))) f).
Proof.
  intros Hget Hv.
  assert (forall f : frame, process_condition condition f = (Ok tt, f)) as Hskip.
  { intros f. unfold process_condition. rewrite Hget. unfold lift. rewrite bind_run.
    rewrite !unknown_type_eq by (done || (by left) || (by right; left)
                                 || (by right; right; left) || (by right; right; right)).
    by destruct condition. }
  assert (forall (before after : list value) (f : frame),
            for_each (before ++ condition :: after) process_condition f =
            for_each (before ++ after) process_condition f) as Hloop.
  { intros before after f. rewrite !for_each_app.
    destruct (for_each before process_condition f) as [[[]|e] f']; [|done].
    simpl. rewrite bind_run. by rewrite Hskip. }
  split; [exact Hskip|]. split; [exact Hloop|].
  intros ts before after f. unfold cycle, parse, fill_packet, document. run.
  by rewrite Hloop.
Qed.


(** ** Properties of the frame kept by the statements *)

Section Preservation.

Variable P : frame -> Prop.

Lemma preserves_ret {A : Type} (a : A) : preserves P (mret a).
Proof. by intros f. Qed.

Lemma preserves_lift {A : Type} (r : result A) : preserves P (lift r).
Proof. by intros f. Qed.

Lemma preserves_bind {A B : Type} (m : M A) (k : A -> M B) :
  preserves P m -> (forall a, preserves P (k a)) -> preserves P (m ≫= k).
Proof.
  intros Hm Hk f Hf. rewrite bind_run. specialize (Hm f Hf).
  destruct (m f) as [[a|e] f']; simpl in *; [by apply Hk|done].
Qed.

Lemma preserves_for_each {A : Type} (l : list A) (body : A -> M unit) :
  (forall x, In x l -> preserves P (body x)) -> preserves P (for_each l body).
Proof.
  induction l as [|x l IH]; intros H; simpl.
  - apply preserves_ret.
  - apply preserves_bind; [apply H; by left|]. intros _. apply IH.
    intros y Hy. apply H. by right.
Qed.

Lemma preserves_get_self : preserves P get_self.
Proof. by intros f. Qed.

Lemma preserves_get_rain_count_size : preserves P get_rain_count_size.
Proof. intros f Hf. unfold get_rain_count_size. by destruct (rain_count_size f). Qed.

End Preservation.

Ltac preserve known :=
  repeat first
    [ known | apply preserves_ret | apply preserves_lift | apply preserves_get_self
    | apply preserves_get_rain_count_size
    | (apply preserves_bind; [|intros ?])
    | (apply preserves_for_each; intros ? _)
    | done
    | match goal with
      | |- preserves _ (if ?b then _ else _) => destruct b
      | |- preserves _ (match ?o with Some _ => _ | None => _ end) => destruct o
      | |- preserves _ (match ?v with PyDict _ => _ | _ => _ end) => destruct v
      end ].

Lemma polls_process_condition (x : float) (condition : value) :
  preserves (polls x) (process_condition condition).
Proof.
  unfold process_condition, rain, storm, storm_count, copy. preserve fail.
Qed.

Lemma polls_parse (x : float) (json : option value) : preserves (polls x) (parse json).
Proof.
  unfold parse, fill_packet. preserve ltac:(apply polls_process_condition).
Qed.

Lemma parse_polls (json : option value) (f : frame) :
  poll_interval (self (snd (parse json f))) = poll_interval (self f).
Proof. exact (polls_parse (poll_interval (self f)) json f eq_refl). Qed.


(** ** The polling loop *)

Lemma sleep_2 : time_sleep (PyInt 2) = Ok tt.
Proof. reflexivity. Qed.

(** The frame a turn of the loop leaves is the one its parsing part left. *)
Lemma cycle_after (r : response) (f : frame) :
  after (cycle r f) =
  match r with
  | GetRaises => f
  | Body json => snd (parse json f)
  end.
Proof.
  destruct r as [|json]; [by unfold cycle; rewrite sleep_2|]. unfold cycle.
  destruct (parse json f) as [[[]|e] f']; [|done].
  by destruct (time_sleep _).
Qed.

(** One turn of the loop for a poll interval that [time.sleep] accepts. *)
Lemma cycle_well (r : response) (f : frame) :
  sleeps_well (self f) ->
  cycle r f =
  match r with
  | GetRaises =>
      {| trace := [Logerr "Error connecting to the WeatherLink Live device.";
                   LogerrException; Sleep (PyInt 2)];
         after := f; stopped := None |}
  | Body json =>
      match parse json f with
      | (Ok _, f') =>
          {| trace := [Yield (_packet f'); Sleep (PyFloat (poll_interval (self f)))];
             after := f'; stopped := None |}
      | (Raise _, f') =>
          {| trace := [Logerr "Error parsing the WeatherLink Live json data.";
                       LogerrException; Sleep (PyFloat (poll_interval (self f)))];
             after := f'; stopped := None |}
      end
  end.
Proof.
  unfold sleeps_well. intros Hw.
  destruct r as [|json]; [by unfold cycle; rewrite sleep_2|]. unfold cycle, handler.
  pose proof (parse_polls json f) as Hp.
  destruct (parse json f) as [[[]|e] f']; cbn [snd] in Hp; rewrite Hp, Hw; done.
Qed.

(** A body that is not JSON, or a document without [data], [data.ts] or
    [data.conditions], makes the parsing part raise. *)
Lemma malformed_raises (json : option value) (f : frame) :
  json = None \/
  (exists data, json = Some data /\
     ((exists e, py_getitem data "data" = Raise e) \/
      (exists d, py_getitem data "data" = Ok d /\
         ((exists e, py_getitem d "ts" = Raise e) \/
          (exists e, py_getitem d "conditions" = Raise e))))) ->
  exists (e : exn) (f' : frame), parse json f = (Raise e, f').
Proof.
  unfold parse, fill_packet.
  intros [->|(data & -> & [[e He]|(d & Hd & [[e He]|[e He]])])].
  - by eexists _, _.
  - run. rewrite He. by eexists _, _.
  - run. rewrite Hd, He. by eexists _, _.
  - run. rewrite Hd. destruct (py_getitem d "ts"); [|by eexists _, _].
    rewrite He. by eexists _, _.
Qed.

Lemma sleeps_app (evs evs' : list event) :
  sleeps (evs ++ evs') = sleeps evs + sleeps evs'.
Proof.
  induction evs as [|ev evs IH]; [done|]. destruct ev; simpl; by rewrite ?IH.
Qed.

Lemma yield_inv (r : response) (f : frame) (p : gmap string value) :
  In (Yield p) (trace (cycle r f)) ->
  exists json f', r = Body json /\ parse json f = (Ok tt, f') /\ p = _packet f'.
Proof.
  intros Hin. destruct r as [|json].
  { unfold cycle in Hin. rewrite sleep_2 in Hin. simpl in Hin. intuition discriminate. }
  unfold cycle, handler in Hin.
  destruct (parse json f) as [[[]|e] f'] eqn:E.
  - exists json, f'. split; [done|]. split; [done|].
    destruct (time_sleep _); simpl in Hin;
      repeat (destruct Hin as [Hin|Hin]; [try discriminate; by injection Hin as <-|]);
      destruct Hin.
  - simpl in Hin. intuition discriminate.
Qed.

(** With a poll interval that [time.sleep] accepts, every turn of the loop
    ends in one sleep, whatever the response was, and the loop takes up the
    next response: no exception ends the generator. *)
Lemma run_goes_on (rs : list response) (f : frame) :
  sleeps_well (self f) ->
  stopped (genLoopPackets rs f) = None /\
  sleeps (trace (genLoopPackets rs f)) = length rs.
Proof.
  revert f. induction rs as [|r rs IH]; intros f Hw; [done|].
  assert (stopped (cycle r f) = None /\ sleeps (trace (cycle r f)) = 1 /\
          sleeps_well (self (after (cycle r f)))) as (Hs & H1 & Hw').
  { rewrite cycle_well by done. destruct r as [|json]; [done|].
    pose proof (parse_polls json f) as Hp. unfold sleeps_well in *.
    destruct (parse json f) as [[[]|e] f']; cbn [snd] in Hp; cbn [after]; by rewrite Hp. }
  cbn [genLoopPackets]. rewrite Hs. cbn [trace stopped].
  destruct (IH (after (cycle r f)) Hw') as [Hgo Hn].
  split; [done|]. rewrite sleeps_app, H1, Hn. done.
Qed.

(** C9 (as the driver has it). With a poll interval that [time.sleep]
    accepts (a float that is not NaN, not negative and not beyond the range
    of the clock): a failed request is logged, followed by a sleep of 2
    seconds, and leaves the state as it was; an exception while the response
    is decoded and turned into a packet is logged and followed by a sleep of
    the poll interval; neither yields a packet, neither ends the generator,
    and in both cases the loop goes on with the next request.  A body that
    is not JSON and a document without [data.ts] or [data.conditions] are
    such exceptions.  A packet is yielded only by a cycle without exception,
    and a run has slept once for each of its responses. *)
Theorem C9_failures_keep_the_loop_running (r : response) (rs : list response) (f : frame) :
  sleeps_well (self f) ->
  stopped (cycle r f) = None /\
  genLoopPackets (r :: rs) f =
    {| trace := (trace (cycle r f) ++ trace (genLoopPackets rs (after (cycle r f))))%list;
       after := after (genLoopPackets rs (after (cycle r f)));
       stopped := None |} /\
  (r = GetRaises ->
     cycle r f =
     {| trace := [Logerr "Error connecting to the WeatherLink Live device.";
                  LogerrException; Sleep (PyInt 2)];
        after := f; stopped := None |}) /\
  (forall json e f',
     r = Body json -> parse json f = (Raise e, f') ->
     cycle r f =
     {| trace := [Logerr "Error parsing the WeatherLink Live json data.";
                  LogerrException; Sleep (PyFloat (poll_interval (self f)))];
        after := f'; stopped := None |}) /\
  (forall json,
     r = Body json ->
     json = None \/
     (exists data, json = Some data /\
        ((exists e, py_getitem data "data" = Raise e) \/
         (exists d, py_getitem data "data" = Ok d /\
            ((exists e, py_getitem d "ts" = Raise e) \/
             (exists e, py_getitem d "conditions" = Raise e))))) ->
     exists e f', parse json f = (Raise e, f')) /\
  (forall p, In (Yield p) (trace (cycle r f)) ->
     exists json f', r = Body json /\ parse json f = (Ok tt, f') /\ p = _packet f') /\
  sleeps (trace (genLoopPackets (r :: rs) f)) = S (length rs).
Proof.
  intros Hw.
  destruct (run_goes_on (r :: rs) f Hw) as [Hgo Hn].
  assert (stopped (cycle r f) = None) as Hs
    by (rewrite cycle_well by done; destruct r as [|json]; [done|];
        by destruct (parse json f) as [[[]|e] f']).
  split; [exact Hs|]. split.
  { revert Hgo. cbn [genLoopPackets]. rewrite Hs. cbn [stopped]. by intros ->. }
  split; [intros ->; by rewrite cycle_well|].
  split; [intros json e f' -> Hraise; by rewrite cycle_well, Hraise|].
  split; [intros json _; apply malformed_raises|].
  split; [apply yield_inv|exact Hn].
Qed.


(** ** The stored pair *)

Lemma bind_ok_inv {A B : Type} (m : M A) (k : A -> M B) (f f' : frame) (b : B) :
  (m ≫= k) f = (Ok b, f') ->
  exists (a : A) (f1 : frame), m f = (Ok a, f1) /\ k a f1 = (Ok b, f').
Proof.
  rewrite bind_run. destruct (m f) as [[a|e] f1]; [|done]. intros H. by exists a, f1.
Qed.

(** Whatever the increment, a reading that is reached and compared without
    an exception is stored. *)
Lemma storm_count_stores (rain_storm rain_storm_start_at d : value) (f f' : frame) :
  storm_count rain_storm rain_storm_start_at f = (Ok d, f') ->
  f' = with_last f rain_storm rain_storm_start_at.
Proof.
  unfold storm_count. intros (this & f1 & [= <- <-] & H)%bind_ok_inv.
  apply bind_ok_inv in H as (rain_count & f2 & Hcount & H).
  assert (f2 = f) as ->.
  { revert Hcount.
    destruct (is_not_None _ && is_not_None _); [|by intros [= _ <-]].
    destruct (negb _); [by intros [= _ <-]|].
    intros (ge & f3 & [= _ <-] & Hge)%bind_ok_inv.
    destruct ge; [|by injection Hge as _ <-].
    apply bind_ok_inv in Hge as (a & f4 & [= _ <-] & Hge).
    apply bind_ok_inv in Hge as (b & f5 & [= _ <-] & Hge).
    by injection Hge as _ <-. }
  apply bind_ok_inv in H as ([] & f3 & [= <-] & H). by injection H as _ <-.
Qed.

(** The stored pair changes only where a reading is stored. *)
Lemma storm_count_frame (rain_storm rain_storm_start_at : value) (f : frame) :
  snd (storm_count rain_storm rain_storm_start_at f) = f \/
  snd (storm_count rain_storm rain_storm_start_at f)
    = with_last f rain_storm rain_storm_start_at.
Proof.
  destruct (storm_count rain_storm rain_storm_start_at f) as [[d|e] f'] eqn:E.
  - right. simpl. by eapply storm_count_stores.
  - left. revert E. unfold storm_count. run.
    destruct (is_not_None _ && is_not_None _); [|done].
    destruct (negb _); [done|].
    destruct (py_le _ _) as [[]|]; simpl; try done; [|by intros [= _ <-]].
    destruct (py_float rain_storm); simpl; [|by intros [= _ <-]].
    destruct (py_float _); simpl; [done|by intros [= _ <-]].
Qed.

Lemma invariant_storm_count (rain_storm rain_storm_start_at : value) :
  rain_storm <> PyNone -> rain_storm_start_at <> PyNone ->
  preserves (fun f => invariant (self f))
    (storm_count rain_storm rain_storm_start_at).
Proof.
  intros H1 H2 f Hf.
  destruct (storm_count_frame rain_storm rain_storm_start_at f) as [-> | ->]; [done|].
  by right.
Qed.

Lemma present_storm_count (rain_storm rain_storm_start_at : value) :
  rain_storm <> PyNone -> rain_storm_start_at <> PyNone ->
  preserves (fun f => both_present (self f))
    (storm_count rain_storm rain_storm_start_at).
Proof.
  intros H1 H2 f Hf.
  destruct (storm_count_frame rain_storm rain_storm_start_at f) as [-> | ->]; done.
Qed.


Section Kept.

(** A property of the instance that storing a non-null pair keeps. *)
Variable K : WLL -> Prop.
Hypothesis storing : forall rain_storm rain_storm_start_at : value,
  rain_storm <> PyNone -> rain_storm_start_at <> PyNone ->
  preserves (fun f => K (self f)) (storm_count rain_storm rain_storm_start_at).

Lemma kept_rain (c : list (string * value)) :
  storm_not_null (PyDict c) = true ->
  preserves (fun f => K (self f)) (rain c).
Proof.
  unfold storm_not_null, rain, storm. intros Hnn.
  destruct (dict_get c "rain_storm") as [rain_storm|];
    destruct (dict_get c "rain_storm_start_at") as [rain_storm_start_at|].
  1: assert (rain_storm <> PyNone /\ rain_storm_start_at <> PyNone) as [H1 H2]
       by (by destruct rain_storm, rain_storm_start_at).
  all: preserve ltac:(by apply storing).
Qed.

Lemma kept_process_condition (condition : value) :
  storm_not_null condition = true ->
  preserves (fun f => K (self f)) (process_condition condition).
Proof.
  intros Hnn. unfold process_condition, copy.
  preserve ltac:(by apply kept_rain).
Qed.

Lemma kept_for_each (items : list value) :
  forallb storm_not_null items = true ->
  preserves (fun f => K (self f)) (for_each items process_condition).
Proof.
  intros Hall. apply preserves_for_each. intros condition Hin.
  apply kept_process_condition. rewrite forallb_forall in Hall. by apply Hall.
Qed.

Lemma kept_parse (json : option value) :
  forallb storm_not_null (records (Body json)) = true ->
  preserves (fun f => K (self f)) (parse json).
Proof.
  unfold records, parse, fill_packet. intros Hall.
  destruct json as [data|]; intros f Hf; run; [|done].
  destruct (py_getitem data "data") as [d|]; [|done]. simpl.
  destruct (py_getitem d "ts") as [ts|]; [|done]. simpl.
  destruct (py_getitem d "conditions") as [conditions|]; [|done]. simpl.
  destruct (py_iter conditions) as [items|]; [|done]. simpl.
  by apply (kept_for_each items Hall (with_packet f _)).
Qed.

End Kept.


Lemma self_kept {A : Type} (m : M A) (f f' : frame) (r : result A) :
  preserves (fun g => self g = self f) m -> m f = (r, f') -> self f' = self f.
Proof. intros H E. specialize (H f eq_refl). by rewrite E in H. Qed.

(** The storm lines store the reading before the packet is written. *)
Lemma storm_stores (rain_storm rain_storm_start_at : value) (f f' : frame) :
  storm rain_storm rain_storm_start_at f = (Ok tt, f') ->
  self f' = self (with_last f rain_storm rain_storm_start_at).
Proof.
  unfold storm. intros (d & f1 & Hcount & Hrest)%bind_ok_inv.
  apply storm_count_stores in Hcount as ->.
  eapply self_kept; [|exact Hrest]. preserve fail.
Qed.

(** A record the rain bookkeeping applies to leaves its reading stored when
    it is processed without an exception. *)
Lemma capable_stores (c : list (string * value)) (f f' : frame) :
  precipitation_capable (PyDict c) = true ->
  storm_not_null (PyDict c) = true ->
  process_condition (PyDict c) f = (Ok tt, f') ->
  both_present (self f').
Proof.
  unfold precipitation_capable, storm_not_null, process_condition, py_getitem.
  destruct (dict_get c "data_structure_type") as [t|]; [|done].
  destruct (dict_get c "rain_size") as [size|] eqn:Esize; [|done].
  destruct (dict_get c "rain_storm") as [rain_storm|] eqn:Etotal; [|done].
  destruct (dict_get c "rain_storm_start_at") as [rain_storm_start_at|] eqn:Estart; [|done].
  intros [H1 Hrange]%andb_prop Hnn.
  assert (rain_storm <> PyNone /\ rain_storm_start_at <> PyNone) as [Hn1 Hn2]
    by (by destruct rain_storm, rain_storm_start_at).
  destruct (py_le (PyInt 1) size) as [[]|] eqn:Hlo; try done.
  destruct (py_le size (PyInt 4)) as [[]|] eqn:Hhi; try done.
  intros (t' & f0 & [= <- <-] & Hrun)%bind_ok_inv.
  rewrite H1 in Hrun.
  apply bind_ok_inv in Hrun as ([] & f1 & Hcopy & Hrun).
  apply bind_ok_inv in Hrun as ([] & f2 & Hrain & Hafter).
  rewrite for_each_copy in Hafter. injection Hafter as <-.
  cbn [with_packet self].
  revert Hrain. unfold rain. rewrite Esize, Etotal, Estart, Hlo.
  intros (lower & f3 & [= <- <-] & Hrain)%bind_ok_inv.
  rewrite Hhi in Hrain.
  apply bind_ok_inv in Hrain as (in_range & f4 & [= <- <-] & Hrain).
  apply bind_ok_inv in Hrain as ([] & f5 & Hsize & Hrain).
  apply bind_ok_inv in Hrain as ([] & f6 & Hrate & Hstorm).
  apply storm_stores in Hstorm. rewrite Hstorm. by split.
Qed.

(** Once a pair is stored, non-null readings keep a pair stored. *)
Lemma present_kept (items : list value) :
  forallb storm_not_null items = true ->
  preserves (fun f => both_present (self f)) (for_each items process_condition).
Proof. apply kept_for_each. apply present_storm_count. Qed.

Lemma capable_in_for_each (items : list value) (condition : value) (f f' : frame) :
  forallb storm_not_null items = true ->
  In condition items ->
  precipitation_capable condition = true ->
  for_each items process_condition f = (Ok tt, f') ->
  both_present (self f').
Proof.
  revert f. induction items as [|x items IH]; intros f Hall Hin Hcap Hrun; [done|].
  simpl in Hall. apply andb_prop in Hall as [Hx Hall].
  cbn [for_each] in Hrun. apply bind_ok_inv in Hrun as ([] & f1 & Hhead & Htail).
  destruct Hin as [-> | Hin].
  - destruct condition as [| | | | | |c]; try done.
    pose proof (capable_stores c f f1 Hcap Hx Hhead) as Hpresent.
    pose proof (present_kept items Hall f1 Hpresent) as Hkept.
    by rewrite Htail in Hkept.
  - by apply (IH f1).
Qed.


Lemma parse_ok_inv (json : option value) (f f' : frame) :
  parse json f = (Ok tt, f') ->
  exists ts : value,
    for_each (records (Body json)) process_condition
      (with_packet f (<["usUnits" := weewx_US]> (<["dateTime" := ts]> ∅))) = (Ok tt, f').
Proof.
  unfold parse, fill_packet, records.
  intros (data & f0 & Hdata & H)%bind_ok_inv.
  destruct json as [v|]; [|done]. injection Hdata as <- <-.
  apply bind_ok_inv in H as (d & f1 & Hd & H). injection Hd as Hd <-. rewrite Hd.
  apply bind_ok_inv in H as (ts & f2 & Hts & H).
  apply bind_ok_inv in H as ([] & f3 & Hnew & H). injection Hts as Hts <-.
  rewrite Hts. injection Hnew as <-.
  apply bind_ok_inv in H as (d' & f4 & Hd' & H). injection Hd' as Hd' <-.
  rewrite Hd in Hd'. injection Hd' as <-.
  apply bind_ok_inv in H as (conditions & f5 & Hc & H). injection Hc as Hc <-. rewrite Hc.
  apply bind_ok_inv in H as (items & f6 & Hi & H). injection Hi as Hi <-. rewrite Hi.
  by exists ts.
Qed.

Lemma invariant_cycle (r : response) (f : frame) :
  forallb storm_not_null (records r) = true ->
  invariant (self f) ->
  invariant (self (after (cycle r f))).
Proof.
  intros Hall Hf. rewrite cycle_after. destruct r as [|json]; [done|].
  exact (kept_parse invariant invariant_storm_count json Hall f Hf).
Qed.

(** The invariant along a run whose records carry no null storm field. *)
Lemma invariant_genLoopPackets (rs : list response) (f : frame) :
  Forall (fun r => forallb storm_not_null (records r) = true) rs ->
  invariant (self f) ->
  invariant (self (after (genLoopPackets rs f))).
Proof.
  revert f. induction rs as [|r rs IH]; intros f Hall Hf; [done|].
  apply Forall_cons in Hall as [Hr Hall].
  cbn [genLoopPackets]. pose proof (invariant_cycle r f Hr Hf) as Hstep.
  destruct (stopped (cycle r f)); [done|]. cbn [after]. by apply IH.
Qed.

(** C6 (as the driver has it). The stored total and the stored storm start
    are both absent when the driver is built; as long as no record carries a
    null [rain_storm] or [rain_storm_start_at], every cycle keeps them both
    absent or both present, and they are both present after a cycle that
    processed a record the rain bookkeeping applies to. *)
Theorem C6_stored_pair_invariant :
  (forall poll : option float, both_absent (__init__ poll) /\ invariant (__init__ poll)) /\
  (forall (r : response) (f : frame),
     forallb storm_not_null (records r) = true ->
     invariant (self f) ->
     invariant (self (after (cycle r f)))) /\
  (forall (json : option value) (condition : value) (f f' : frame),
     forallb storm_not_null (records (Body json)) = true ->
     In condition (records (Body json)) ->
     precipitation_capable condition = true ->
     parse json f = (Ok tt, f') ->
     both_present (self f')).
Proof.
  split; [|split].
  - intros poll. split; [done|by left].
  - apply invariant_cycle.
  - intros json condition f f' Hall Hin Hcap (ts & Hrun)%parse_ok_inv.
    by eapply (capable_in_for_each (records (Body json)) condition).
Qed.


(** ** The pass-through fields *)

Lemma packet_update_keeps (key k : string) (x : value) (o : option value) :
  key <> k -> preserves (fun f => _packet f !! k = o) (packet_update key x).
Proof. intros Hne f Hf. simpl. by rewrite lookup_insert_ne. Qed.

(** The rain block writes no other key than [rain] and [rainRate]. *)
Lemma rain_keeps (c : list (string * value)) (k : string) (o : option value) :
  k <> "rain" -> k <> "rainRate" ->
  preserves (fun f => _packet f !! k = o) (rain c).
Proof.
  intros H1 H2. unfold rain, storm, storm_count.
  preserve ltac:(by apply packet_update_keeps).
Qed.

(** Finds the row of a table and checks that no later row has its target. *)
Ltac no_later := intros ? Hlater; simpl in Hlater; intuition discriminate.

Ltac last_row c :=
  first
    [ (apply (copied_last c []); [assumption | no_later])
    | (apply (copied_last c [_]); [assumption | no_later])
    | (apply (copied_last c [_; _]); [assumption | no_later])
    | (apply (copied_last c [_; _; _]); [assumption | no_later])
    | (apply (copied_last c [_; _; _; _]); [assumption | no_later])
    | (apply (copied_last c [_; _; _; _; _]); [assumption | no_later])
    | (apply (copied_last c [_; _; _; _; _; _]); [assumption | no_later])
    | (apply (copied_last c [_; _; _; _; _; _; _]); [assumption | no_later])
    | (apply (copied_last c [_; _; _; _; _; _; _; _]); [assumption | no_later])
    | (apply (copied_last c [_; _; _; _; _; _; _; _; _]); [assumption | no_later]) ].

Ltac rows H := repeat (destruct H as [[= <- <-] | H]); [.. | destruct H].

(** A field of the table of the record's kind lands under its target key
    with the value it has in the record. *)
Lemma passthrough_copies (c : list (string * value)) (t v : value) (f f' : frame)
    (src dst : string) :
  dict_get c "data_structure_type" = Some t ->
  In (src, dst) (passthrough t) ->
  src <> "moist_soil_2" ->
  dict_get c src = Some v ->
  process_condition (PyDict c) f = (Ok tt, f') ->
  _packet f' !! dst = Some v.
Proof.
  intros Ht Hin Hsrc Hv. unfold process_condition, py_getitem, passthrough in *.
  rewrite Ht. intros (t' & f0 & [= <- <-] & Hrun)%bind_ok_inv.
  destruct (py_eq t (PyInt 1)).
  { apply bind_ok_inv in Hrun as ([] & f1 & Hcopy & Hrun).
    rewrite for_each_copy in Hcopy. injection Hcopy as <-.
    apply bind_ok_inv in Hrun as ([] & f2 & Hrain & Hafter).
    rewrite for_each_copy in Hafter. injection Hafter as <-.
    cbn [with_packet _packet].
    apply in_app_or in Hin as [Hin | Hin].
    - assert (copied c iss_fields (_packet f) !! dst = Some v) as Hiss
        by (rows Hin; last_row c).
      rewrite copied_other by (rows Hin; simpl; intuition discriminate).
      pose proof (rain_keeps c dst (Some v)) as Hkeep.
      specialize (Hkeep ltac:(rows Hin; discriminate) ltac:(rows Hin; discriminate)
                    (with_packet f (copied c iss_fields (_packet f))) Hiss).
      by rewrite Hrain in Hkeep.
    - rows Hin; last_row c. }
  destruct (py_eq t (PyInt 2)).
  { rewrite for_each_copy in Hrun. injection Hrun as <-. cbn [with_packet _packet].
    rows Hin; try done; last_row c. }
  destruct (py_eq t (PyInt 3)).
  { rewrite for_each_copy in Hrun. injection Hrun as <-. cbn [with_packet _packet].
    rows Hin; last_row c. }
  destruct (py_eq t (PyInt 4)); [|done].
  rewrite for_each_copy in Hrun. injection Hrun as <-. cbn [with_packet _packet].
  rows Hin; last_row c.
Qed.


(** A record of kind 2, 3 or 4 is processed without an exception, whatever
    its fields hold. *)
Lemma plain_record_total (c : list (string * value)) (t : value) (f : frame) :
  dict_get c "data_structure_type" = Some t ->
  py_eq t (PyInt 1) = false ->
  exists f' : frame, process_condition (PyDict c) f = (Ok tt, f').
Proof.
  intros Ht H1. unfold process_condition, py_getitem. rewrite Ht.
  unfold lift. rewrite bind_run, H1.
  destruct (py_eq t (PyInt 2)); [rewrite for_each_copy; by eexists|].
  destruct (py_eq t (PyInt 3)); [rewrite for_each_copy; by eexists|].
  destruct (py_eq t (PyInt 4)); [rewrite for_each_copy; by eexists|].
  by eexists.
Qed.

(** The pass-through of a table leaves a key without entry when no field
    with that target is present. *)
Lemma copies_keep_absent (c : list (string * value)) (fields : list (string * string))
    (key : string) :
  (forall src, In (src, key) fields -> dict_get c src = None) ->
  preserves (fun g => _packet g !! key = None) (for_each fields (copy c)).
Proof.
  intros H g Hg. rewrite for_each_copy. cbn [snd with_packet _packet].
  by rewrite copied_untouched.
Qed.

Lemma rain_keeps_absent (c : list (string * value)) (key : string) :
  (key = "rainRate" -> dict_get c "rain_rate_last" = None) ->
  (key = "rain" -> dict_get c "rain_storm" = None) ->
  preserves (fun g => _packet g !! key = None) (rain c).
Proof.
  intros Hrate Hrain. unfold rain, storm, storm_count.
  destruct (dict_get c "rain_rate_last") as [rate|];
    destruct (dict_get c "rain_storm") as [rain_storm|].
  all: preserve ltac:(apply packet_update_keeps; intros E; symmetry in E;
                      (by specialize (Hrate E)) || (by specialize (Hrain E))).
Qed.

Lemma process_condition_keeps_absent (condition : value) (key : string) :
  (forall c src, condition = PyDict c -> In (src, key) sources -> dict_get c src = None) ->
  preserves (fun g => _packet g !! key = None) (process_condition condition).
Proof.
  intros H. unfold process_condition.
  destruct condition as [| | | | | |c]; try (solve [preserve fail]).
  assert (forall src, In (src, key) sources -> dict_get c src = None) as Hc
    by (intros src; by apply H).
  unfold sources in Hc.
  preserve ltac:(first
    [ apply copies_keep_absent; intros src Hin; apply Hc; rewrite !in_app_iff; tauto
    | apply rain_keeps_absent; intros ->; apply Hc; rewrite !in_app_iff; simpl; tauto ]).
Qed.

(** A key of the packet has no entry when none of the fields the driver
    writes under it is present in any record. *)
Lemma absent_stays_absent (json : option value) (f f' : frame) (key : string) :
  key <> "dateTime" -> key <> "usUnits" ->
  (forall c src, In (PyDict c) (records (Body json)) -> In (src, key) sources ->
                 dict_get c src = None) ->
  parse json f = (Ok tt, f') ->
  _packet f' !! key = None.
Proof.
  intros Hd Hu Habsent (ts & Hrun)%parse_ok_inv.
  assert (preserves (fun g => _packet g !! key = None)
            (for_each (records (Body json)) process_condition)) as Hkeep.
  { apply preserves_for_each. intros condition Hin.
    apply process_condition_keeps_absent. intros c src -> Hsrc. by apply Habsent. }
  specialize (Hkeep (with_packet f (<["usUnits" := weewx_US]> (<["dateTime" := ts]> ∅)))).
  rewrite Hrun in Hkeep. apply Hkeep. cbn [with_packet _packet].
  by rewrite !lookup_insert_ne.
Qed.

(** C3 (as the driver has it). A pass-through field that is present with the
    value null is not treated as absent: when the record is processed, the
    packet gets an entry under the field's target key, and its value is
    null.  ([moist_soil_2] is left aside: its target is also the target of
    [moist_soil_3].) *)
Theorem C3_null_is_passed_through (c : list (string * value)) (t : value) (f f' : frame)
    (src dst : string) :
  dict_get c "data_structure_type" = Some t ->
  In (src, dst) (passthrough t) ->
  src <> "moist_soil_2" ->
  dict_get c src = Some PyNone ->
  process_condition (PyDict c) f = (Ok tt, f') ->
  _packet f' !! dst = Some PyNone.
Proof. apply passthrough_copies. Qed.

(** ** Evaluations *)

(** The floats of the literals of the source, as mantissa and exponent, and
    two products that are not the decimal products. *)
Example literals :
  literal 1 100 = S754_finite false 5764607523034235 (-59) /\
  literal 1 10 = S754_finite false 7205759403792794 (-56) /\
  fmul (literal 2 10) MM_TO_INCH = S754_finite false 4539063492852203 (-59) /\
  fmul (literal 1 1000) MM_TO_INCH = S754_finite false 5810001270850819 (-67) /\
  fmul (float_of_Z 3) (literal 1 10) <> literal 3 10 /\
  fmul (float_of_Z 57) (literal 1 100) <> literal 57 100.
Proof. by vm_compute. Qed.

(** Integers beyond 2^53 are rounded, and beyond the largest float they
    are refused. *)
Example large_integers :
  float_of_Z (2 ^ 53 + 1) = float_of_Z (2 ^ 53) /\
  fsub (float_of_Z (2 ^ 53 + 1)) (float_of_Z (2 ^ 53)) = zero /\
  float_of_int (10 ^ 400) = Raise OverflowError /\
  py_mul (PyInt (10 ^ 400)) (literal 1 100) = Raise OverflowError.
Proof. by vm_compute. Qed.

(** [time.sleep] on a few intervals. *)
Example sleeping :
  time_sleep (PyFloat (float_of_Z 10)) = Ok tt /\
  time_sleep (PyFloat (S754_zero true)) = Ok tt /\
  time_sleep (PyFloat (float_of_Z (-1))) = Raise ValueError /\
  time_sleep (PyFloat S754_nan) = Raise ValueError /\
  time_sleep (PyFloat (S754_infinity false)) = Raise OverflowError /\
  time_sleep (PyFloat (float_of_Z (10 ^ 300))) = Raise OverflowError.
Proof. by vm_compute. Qed.

(** The four cycles of the specification's end-to-end scenario. *)
Example scenario_1 :
  let out := cycle (Body (Some (document (PyInt 1000) [storm_record (PyInt 10) (PyInt 500)])))
               (start (__init__ None)) in
  entry out "outTemp" = Some (Some (PyFloat (literal 723 10))) /\
  entry out "rain" = Some (Some (PyFloat (fmul zero (literal 1 100)))) /\
  self (after out) = self (stored (PyInt 10) (PyInt 500)).
Proof. by vm_compute. Qed.

Example scenario_2 :
  let out := cycle (Body (Some (document (PyInt 1000) [storm_record (PyInt 15) (PyInt 500)])))
               (stored (PyInt 10) (PyInt 500)) in
  entry out "rain" = Some (Some (PyFloat (fmul (float_of_Z (15 - 10)) (literal 1 100)))) /\
  self (after out) = self (stored (PyInt 15) (PyInt 500)).
Proof. by vm_compute. Qed.

Example scenario_3 :
  let out := cycle (Body (Some (document (PyInt 1000) [storm_record (PyInt 3) (PyInt 900)])))
               (stored (PyInt 15) (PyInt 500)) in
  entry out "rain" = Some (Some (PyFloat (fmul (float_of_Z 3) (literal 1 100)))) /\
  self (after out) = self (stored (PyInt 3) (PyInt 900)).
Proof. by vm_compute. Qed.

Example scenario_4 :
  let out := cycle (Body (Some (document (PyInt 1000) [storm_record (PyInt 1) (PyInt 900)])))
               (stored (PyInt 3) (PyInt 900)) in
  entry out "rain" = Some (Some (PyFloat (fmul zero (literal 1 100)))) /\
  self (after out) = self (stored (PyInt 1) (PyInt 900)).
Proof. by vm_compute. Qed.


(** C2 (what the driver does). [moist_soil_2] is written under
    [soilMoist3], the key of [moist_soil_3]: a leaf/soil record with both
    fields yields a packet without [soilMoist2] whose [soilMoist3] is the
    value of [moist_soil_3], and a record with [moist_soil_2] alone yields
    its value under [soilMoist3]. *)
Theorem C2_moist_soil_2_lands_in_soilMoist3 :
  let both := cycle (Body (Some (document (PyInt 1000)
                [record 2 [("moist_soil_2", PyInt 31); ("moist_soil_3", PyInt 47)]])))
                (start (__init__ None)) in
  let alone := cycle (Body (Some (document (PyInt 1000)
                 [record 2 [("moist_soil_2", PyInt 31)]])))
                 (start (__init__ None)) in
  entry both "soilMoist2" = Some None /\
  entry both "soilMoist3" = Some (Some (PyInt 47)) /\
  entry alone "soilMoist2" = Some None /\
  entry alone "soilMoist3" = Some (Some (PyInt 31)).
Proof. by vm_compute. Qed.

(** C7 (what the driver does). With [moist_soil_2] present with the value 0
    and [moist_soil_3] absent from every record, the packet has
    [soilMoist3] (equal to 0) and no [soilMoist2]; the other fields of the
    record pass under their own keys, 0 included. *)
Theorem C7_zero_under_the_wrong_key :
  let out := cycle (Body (Some (document (PyInt 1000)
               [record 2 [("temp_1", PyInt 0); ("moist_soil_2", PyInt 0)]])))
               (start (__init__ None)) in
  entry out "soilTemp1" = Some (Some (PyInt 0)) /\
  entry out "soilMoist2" = Some None /\
  entry out "soilMoist3" = Some (Some (PyInt 0)) /\
  entry out "soilTemp2" = Some None.
Proof. by vm_compute. Qed.

(** A null pass-through field yields an entry, an absent one does not. *)
Lemma null_entry :
  entry (cycle (Body (Some (document (PyInt 1000) [record 1 [("temp", PyNone)]])))
           (start (__init__ None))) "outTemp" = Some (Some PyNone) /\
  entry (cycle (Body (Some (document (PyInt 1000) [record 1 []])))
           (start (__init__ None))) "outTemp" = Some None.
Proof. by vm_compute. Qed.

(** A null [rain_rate_last] or a null [rain_size] makes the cycle fail. *)
Lemma null_rain_field_raises :
  trace (cycle (Body (Some (document (PyInt 1000)
         [record 1 [("rain_size", PyInt 1); ("rain_rate_last", PyNone)]])))
         (start (__init__ None)))
  = [Logerr "Error parsing the WeatherLink Live json data."; LogerrException;
     Sleep (PyFloat (float_of_Z 10))] /\
  trace (cycle (Body (Some (document (PyInt 1000) [record 1 [("rain_size", PyNone)]])))
         (start (__init__ None)))
  = [Logerr "Error parsing the WeatherLink Live json data."; LogerrException;
     Sleep (PyFloat (float_of_Z 10))].
Proof. by vm_compute. Qed.

(** A null storm start is stored next to a total that is not null. *)
Lemma null_start_stored :
  let out := cycle (Body (Some (document (PyInt 1000) [storm_record (PyInt 0) PyNone])))
               (start (__init__ None)) in
  entry out "rain" = Some (Some (PyFloat (fmul zero (literal 1 100)))) /\
  last_rain_storm (self (after out)) = PyInt 0 /\
  last_rain_storm_start_at (self (after out)) = PyNone.
Proof. by vm_compute. Qed.

(** One reading above the stored total, in the stored storm. *)
Lemma delta_above_stored :
  deltas [(PyInt 15, PyInt 500)] (stored (PyInt 10) (PyInt 500)) =
  (Ok [PyFloat (float_of_Z 5)], stored (PyInt 15) (PyInt 500)).
Proof. by vm_compute. Qed.

(** A record with a null [rain_storm], read against a stored pair of the
    same storm, raises where the totals are compared: nothing is stored and
    nothing is yielded. *)
Lemma null_total_raises :
  let c := [("rain_size", PyInt 1); ("rain_storm", PyNone);
            ("rain_storm_start_at", PyInt 500)] in
  let f := stored (PyInt 10) (PyInt 500) in
  let out := cycle (Body (Some (document (PyInt 1000) [record 1 c]))) f in
  fst (process_condition (record 1 c) f) = Raise TypeError /\
  self (snd (process_condition (record 1 c) f)) = self f /\
  self (after out) = self f /\
  yielded (trace out) = [].
Proof. by vm_compute. Qed.

(** A record with a null [rain_rate_last] raises before its storm fields
    are read: nothing is stored and nothing is yielded. *)
Lemma null_rate_raises :
  let c := [("rain_size", PyInt 1); ("rain_rate_last", PyNone);
            ("rain_storm", PyInt 15); ("rain_storm_start_at", PyInt 500)] in
  let f := stored (PyInt 10) (PyInt 500) in
  let out := cycle (Body (Some (document (PyInt 1000) [record 1 c]))) f in
  fst (process_condition (record 1 c) f) = Raise TypeError /\
  self (snd (process_condition (record 1 c) f)) = self f /\
  self (after out) = self f /\
  yielded (trace out) = [] /\
  entry out "rain" = None /\
  entry out "rainRate" = None.
Proof. by vm_compute. Qed.

(** With a negative poll interval, the sleep of the handler raises: the
    generator ends with the first response that is not a packet, and the
    responses after it are never asked for. *)
Lemma negative_interval_stops :
  let f := start (__init__ (Some (float_of_Z (-1)))) in
  cycle (Body None) f =
    {| trace := [Logerr "Error parsing the WeatherLink Live json data."; LogerrException;
                 Sleep (PyFloat (float_of_Z (-1)))];
       after := f; stopped := Some ValueError |} /\
  genLoopPackets [Body None; GetRaises; Body None] f = cycle (Body None) f.
Proof. by vm_compute. Qed.

(** C10. The stored reading is advanced before the packet is complete: there
    are documents in which a record after the rain record raises, so that
    the cycle yields nothing while the reading of the rain record is stored
    all the same; the next cycle compares with that reading, and the
    increment the failed cycle had computed is never emitted. *)
Theorem C10_increment_lost_on_late_failure :
  exists (rain_record later_rain_record broken : value) (f : frame),
    let failed := cycle (Body (Some (document (PyInt 1000) [rain_record; broken]))) f in
    let alone := cycle (Body (Some (document (PyInt 1000) [rain_record]))) f in
    let next :=
      cycle (Body (Some (document (PyInt 1010) [later_rain_record]))) (after failed) in
    precipitation_capable rain_record = true /\
    precipitation_capable later_rain_record = true /\
    fst (process_condition broken f) = Raise TypeError /\
    last_rain_storm (self f) = PyInt 10 /\
    last_rain_storm_start_at (self f) = PyInt 500 /\
    entry alone "rain"
      = Some (Some (PyFloat (fmul (fsub (float_of_Z 15) (float_of_Z 10)) (literal 1 100)))) /\
    yielded (trace failed) = [] /\
    trace failed = [Logerr "Error parsing the WeatherLink Live json data.";
                    LogerrException; Sleep (PyFloat (float_of_Z 10))] /\
    stopped failed = None /\
    last_rain_storm (self (after failed)) = PyInt 15 /\
    last_rain_storm_start_at (self (after failed)) = PyInt 500 /\
    entry next "rain"
      = Some (Some (PyFloat (fmul (fsub (float_of_Z 18) (float_of_Z 15)) (literal 1 100)))).
Proof.
  exists (storm_record (PyInt 15) (PyInt 500)), (storm_record (PyInt 18) (PyInt 500)),
    (record 1 [("rain_size", PyInt 1); ("rain_rate_last", PyNone)]),
    (stored (PyInt 10) (PyInt 500)).
  by vm_compute.
Qed.


(** ** Further properties of the packet *)

(** What a successful parse has read. *)
Lemma parse_ok_stamp (json : option value) (f f' : frame) :
  parse json f = (Ok tt, f') ->
  exists data d ts,
    json = Some data /\ py_getitem data "data" = Ok d /\ py_getitem d "ts" = Ok ts /\
    for_each (records (Body json)) process_condition
      (with_packet f (<["usUnits" := weewx_US]> (<["dateTime" := ts]> ∅))) = (Ok tt, f').
Proof.
  unfold parse, fill_packet, records.
  intros (data & f0 & Hdata & H)%bind_ok_inv.
  destruct json as [v|]; [|done]. injection Hdata as <- <-.
  apply bind_ok_inv in H as (d & f1 & Hd & H). injection Hd as Hd <-. rewrite Hd.
  apply bind_ok_inv in H as (ts & f2 & Hts & H).
  apply bind_ok_inv in H as ([] & f3 & Hnew & H). injection Hts as Hts <-.
  rewrite Hts. injection Hnew as <-.
  apply bind_ok_inv in H as (d' & f4 & Hd' & H). injection Hd' as Hd' <-.
  rewrite Hd in Hd'. injection Hd' as <-.
  apply bind_ok_inv in H as (conditions & f5 & Hc & H). injection Hc as Hc <-. rewrite Hc.
  apply bind_ok_inv in H as (items & f6 & Hi & H). injection Hi as Hi <-. rewrite Hi.
  by exists v, d, ts.
Qed.

Lemma copies_keep (c : list (string * value)) (fields : list (string * string))
    (k : string) (o : option value) :
  ~ In k (map snd fields) ->
  preserves (fun g => _packet g !! k = o) (for_each fields (copy c)).
Proof.
  intros H g Hg. rewrite for_each_copy. cbn [snd with_packet _packet].
  by rewrite copied_other.
Qed.

(** A key that no pair of [sources] targets is never written by a record. *)
Lemma process_condition_keeps_key (condition : value) (k : string) (o : option value) :
  ~ In k (map snd sources) ->
  preserves (fun g => _packet g !! k = o) (process_condition condition).
Proof.
  intros H. unfold process_condition.
  destruct condition as [| | | | | |c]; try (solve [preserve fail]).
  unfold sources in H. rewrite !map_app, !in_app_iff in H.
  preserve ltac:(first
    [ apply copies_keep; tauto
    | apply rain_keeps; intros ->; apply H; simpl; tauto ]).
Qed.

(** X1. Every packet the generator yields carries [dateTime], equal to the
    [ts] of the document, and [usUnits], equal to [weewx.US]: no record can
    overwrite them. *)
Theorem X1_packet_is_stamped (r : response) (f : frame) (p : gmap string value) :
  In (Yield p) (trace (cycle r f)) ->
  exists data d ts,
    r = Body (Some data) /\ py_getitem data "data" = Ok d /\ py_getitem d "ts" = Ok ts /\
    p !! "dateTime" = Some ts /\ p !! "usUnits" = Some weewx_US.
Proof.
  intros (json & f' & -> & Hparse & ->)%yield_inv.
  apply parse_ok_stamp in Hparse as (data & d & ts & -> & Hd & Hts & Hrun).
  exists data, d, ts. do 3 (split; [done|]).
  assert (forall k o, ~ In k (map snd sources) ->
            preserves (fun g => _packet g !! k = o)
              (for_each (records (Body (Some data))) process_condition)) as Hkeep.
  { intros k o Hk. apply preserves_for_each. intros condition _.
    by apply process_condition_keeps_key. }
  split.
  - assert (~ In "dateTime" (map snd sources)) as Hk by not_in.
    specialize (Hkeep "dateTime" (Some ts) Hk
                  (with_packet f (<["usUnits" := weewx_US]> (<["dateTime" := ts]> ∅)))).
    rewrite Hrun in Hkeep. apply Hkeep. cbn [with_packet _packet].
    by rewrite lookup_insert_ne, lookup_insert_eq.
  - assert (~ In "usUnits" (map snd sources)) as Hk by not_in.
    specialize (Hkeep "usUnits" (Some weewx_US) Hk
                  (with_packet f (<["usUnits" := weewx_US]> (<["dateTime" := ts]> ∅)))).
    rewrite Hrun in Hkeep. apply Hkeep. cbn [with_packet _packet].
    by rewrite lookup_insert_eq.
Qed.

(** X2. A key other than [dateTime] and [usUnits] is absent from the yielded
    packet when no record of the document carries a field that the driver
    writes under that key. *)
Theorem X2_no_source_no_key (r : response) (f : frame) (p : gmap string value)
    (key : string) :
  In (Yield p) (trace (cycle r f)) ->
  key <> "dateTime" -> key <> "usUnits" ->
  (forall c src, In (PyDict c) (records r) -> In (src, key) sources ->
                 dict_get c src = None) ->
  p !! key = None.
Proof.
  intros (json & f' & -> & Hparse & ->)%yield_inv Hd Hu Habsent.
  by apply (absent_stays_absent json f f' key).
Qed.

(** X3. The keys of a yielded packet are among [dateTime], [usUnits] and the
    targets of the driver's tables; [soilMoist2] is none of them, so no
    packet ever has it. *)
Theorem X3_packet_keys_are_closed (r : response) (f : frame) (p : gmap string value) :
  In (Yield p) (trace (cycle r f)) ->
  (forall key, is_Some (p !! key) -> In key packet_keys) /\
  p !! "soilMoist2" = None.
Proof.
  intros (json & f' & -> & Hparse & ->)%yield_inv.
  assert (forall key, ~ In key packet_keys -> _packet f' !! key = None) as Hout.
  { intros key Hkey. apply (absent_stays_absent json f f' key); try done.
    - intros ->. apply Hkey. by left.
    - intros ->. apply Hkey. right. by left.
    - intros c src _ Hsrc. exfalso. apply Hkey. right. right.
      apply in_map_iff. by exists (src, key). }
  split.
  - intros key [v Hv]. destruct (in_dec String.string_dec key packet_keys) as [Hin|Hout']; [done|].
    rewrite (Hout key Hout') in Hv. discriminate.
  - apply Hout. not_in.
Qed.

(** X4. The last record wins: when the last record of the document is of a
    known kind and carries a pass-through field (other than [moist_soil_2]),
    the yielded packet has the value of that field, unmodified, under the
    field's key, whatever the records before it wrote there. *)
Theorem X4_last_record_wins (r : response) (f : frame) (p : gmap string value)
    (before : list value) (c : list (string * value)) (t v : value) (src dst : string) :
  In (Yield p) (trace (cycle r f)) ->
  records r = (before ++ [PyDict c])%list ->
  dict_get c "data_structure_type" = Some t ->
  In (src, dst) (passthrough t) ->
  src <> "moist_soil_2" ->
  dict_get c src = Some v ->
  p !! dst = Some v.
Proof.
  intros (json & f' & -> & Hparse & ->)%yield_inv Hrec Ht Hin Hsrc Hv.
  apply parse_ok_inv in Hparse as (ts & Hrun). rewrite Hrec, for_each_app in Hrun.
  destruct (for_each before process_condition _) as [[[]|e] f1]; [|done].
  cbn [for_each] in Hrun. apply bind_ok_inv in Hrun as ([] & f2 & Hlast & Hret).
  injection Hret as <-.
  by apply (passthrough_copies c t v f1 f2 src dst).
Qed.


(** ** Records without rain bookkeeping *)

(** X5. A record of a kind other than 1, whatever its fields hold, is
    processed without an exception; it leaves the stored pair and the
    collector multiplier as they were and writes no key outside the table
    of its kind. *)
Theorem X5_plain_records_never_raise (c : list (string * value)) (t : value) (f : frame) :
  dict_get c "data_structure_type" = Some t ->
  py_eq t (PyInt 1) = false ->
  exists f' : frame,
    process_condition (PyDict c) f = (Ok tt, f') /\
    self f' = self f /\
    rain_count_size f' = rain_count_size f /\
    forall k, ~ In k (map snd (passthrough t)) -> _packet f' !! k = _packet f !! k.
Proof.
  intros Ht H1. unfold process_condition, py_getitem, passthrough. rewrite Ht.
  unfold lift. rewrite bind_run, H1.
  destruct (py_eq t (PyInt 2));
    [|destruct (py_eq t (PyInt 3)); [|destruct (py_eq t (PyInt 4))]].
  1-3: rewrite for_each_copy; eexists; split; [done|]; repeat split;
       intros k Hk; cbn [with_packet _packet]; by apply copied_other.
  exists f. by repeat split.
Qed.

(** The rain block does nothing when the record has no collector type or
    one outside 1..4. *)
Lemma rain_skipped (c : list (string * value)) (g : frame) :
  dict_get c "rain_size" = None \/
  (exists size, dict_get c "rain_size" = Some size /\ out_of_range size) ->
  rain c g = (Ok tt, g).
Proof.
  unfold rain. intros [-> | (size & -> & q & Hq & Hsize)]; [done|].
  rewrite bind_run. unfold lift at 1.
  rewrite (py_le_numbers _ _ (Finite 1) (Finite q)) by done. cbn [number_leb].
  destruct (Qle_bool 1 q) eqn:Hlo; [|done].
  rewrite bind_run. unfold lift at 1.
  rewrite (py_le_numbers _ _ (Finite q) (Finite 4)) by done. cbn [number_leb].
  destruct (Qle_bool q 4) eqn:Hhi; [|done].
  apply Qle_bool_iff in Hlo, Hhi. lra.
Qed.

(** X6. An ISS record without [rain_size], or with a [rain_size] below 1 or
    above 4 (0 is reserved), is processed without an exception and without
    any rain bookkeeping: whatever [rain_rate_last], [rain_storm] and
    [rain_storm_start_at] hold, the stored pair, the collector multiplier
    and the keys [rain] and [rainRate] of the packet stay as they were. *)
Theorem X6_collector_type_out_of_range (c : list (string * value)) (t : value) (f : frame) :
  dict_get c "data_structure_type" = Some t ->
  py_eq t (PyInt 1) = true ->
  dict_get c "rain_size" = None \/
  (exists size, dict_get c "rain_size" = Some size /\ out_of_range size) ->
  exists f' : frame,
    process_condition (PyDict c) f = (Ok tt, f') /\
    self f' = self f /\
    rain_count_size f' = rain_count_size f /\
    _packet f' !! "rain" = _packet f !! "rain" /\
    _packet f' !! "rainRate" = _packet f !! "rainRate".
Proof.
  intros Ht H1 Hsize. unfold process_condition, py_getitem. rewrite Ht.
  unfold lift at 1. rewrite bind_run, H1.
  rewrite bind_run, for_each_copy. rewrite bind_run, rain_skipped by done.
  rewrite for_each_copy. eexists. split; [done|]. repeat split.
  all: cbn [with_packet _packet]; rewrite !copied_other by not_in; done.
Qed.

(** The stored pair changes only where the rain block reaches the storm
    lines. *)
Lemma rain_self (c : list (string * value)) (g : frame) :
  self (snd (rain c g)) = self g \/
  exists size rain_storm rain_storm_start_at,
    dict_get c "rain_size" = Some size /\
    py_le (PyInt 1) size = Ok true /\ py_le size (PyInt 4) = Ok true /\
    dict_get c "rain_storm" = Some rain_storm /\
    dict_get c "rain_storm_start_at" = Some rain_storm_start_at.
Proof.
  unfold rain. destruct (dict_get c "rain_size") as [size|] eqn:Esize; [|by left].
  rewrite bind_run. unfold lift at 1.
  destruct (py_le (PyInt 1) size) as [[]|e] eqn:Hlo; [|by left..].
  rewrite bind_run. unfold lift at 1.
  destruct (py_le size (PyInt 4)) as [[]|e] eqn:Hhi; [|by left..].
  destruct (dict_get c "rain_storm") as [rain_storm|] eqn:Etotal;
    [destruct (dict_get c "rain_storm_start_at") as [rain_storm_start_at|] eqn:Estart|].
  { right. by exists size, rain_storm, rain_storm_start_at. }
  all: left.
  all: match goal with |- self (snd ?x) = _ => destruct x as [r g'] eqn:E end.
  all: eapply self_kept; [|exact E]; preserve fail.
Qed.

Lemma process_condition_self (condition : value) (g : frame) :
  precipitation_capable condition = false ->
  self (snd (process_condition condition g)) = self g.
Proof.
  intros H. destruct condition as [| | | | | |c]; try done.
  unfold process_condition, py_getitem. unfold precipitation_capable in H.
  destruct (dict_get c "data_structure_type") as [t|]; [|done].
  unfold lift. rewrite bind_run.
  destruct (py_eq t (PyInt 1)).
  - rewrite bind_run, for_each_copy, bind_run.
    destruct (rain_self c (with_packet g (copied c iss_fields (_packet g))))
      as [Hsame | (size & rs & rsa & Es & Hlo & Hhi & Ers & Ersa)].
    + destruct (rain c _) as [[[]|e] g2]; [rewrite for_each_copy|]; exact Hsame.
    + rewrite Es, Ers, Ersa, Hlo, Hhi in H. discriminate.
  - destruct (py_eq t (PyInt 2)); [by rewrite for_each_copy|].
    destruct (py_eq t (PyInt 3)); [by rewrite for_each_copy|].
    destruct (py_eq t (PyInt 4)); [by rewrite for_each_copy|]. done.
Qed.

(** X7. The stored pair is touched by nothing but the rain bookkeeping: a
    failed request, a response that is not parsed, and a document none of
    whose records is an ISS record with a collector type between 1 and 4 and
    both storm fields, all leave it as it was. *)
Theorem X7_stored_pair_untouched (r : response) (f : frame) :
  (forall condition, In condition (records r) -> precipitation_capable condition = false) ->
  self (after (cycle r f)) = self f.
Proof.
  intros Hnone. rewrite cycle_after. destruct r as [|json]; [done|].
  unfold parse, fill_packet. unfold records in Hnone.
  destruct json as [data|]; run; [|done].
  destruct (py_getitem data "data") as [d|]; [|done]. simpl.
  destruct (py_getitem d "ts") as [ts|]; [|done]. simpl.
  destruct (py_getitem d "conditions") as [conditions|]; [|done]. simpl.
  destruct (py_iter conditions) as [items|]; [|done]. simpl.
  assert (preserves (fun g => self g = self f) (for_each items process_condition)) as Hkeep.
  { apply preserves_for_each. intros condition Hin g Hg.
    rewrite process_condition_self by (by apply Hnone). exact Hg. }
  by apply Hkeep.
Qed.

(** The storm lines keep the collector multiplier and the rain rate of the
    packet. *)
Lemma storm_keeps_rate (rain_storm rain_storm_start_at : value) (m : float) (v : value) :
  preserves (fun g => rain_count_size g = Some m /\ _packet g !! "rainRate" = Some v)
    (storm rain_storm rain_storm_start_at).
Proof.
  unfold storm, storm_count.
  preserve ltac:(intros g [Hm Hv]; simpl; by rewrite ?lookup_insert_ne).
Qed.

(** X8. The collector multiplier is a local of the generator that only the
    collector types 1, 2, 3 and 4 assign.  An ISS record whose [rain_size] is
    another number between 1 and 4 is given the multiplier of the last
    record that assigned one: once [float()] has accepted [rain_rate_last],
    the [rainRate] of the packet is its float times that multiplier, as a
    float product, whatever the storm lines do after it; when no multiplier
    was assigned yet, the record raises [UnboundLocalError].  When
    [float()] refuses [rain_rate_last], its exception comes first. *)
Theorem X8_multiplier_of_an_earlier_record (c : list (string * value)) (t size rate : value)
    (f : frame) :
  dict_get c "data_structure_type" = Some t ->
  py_eq t (PyInt 1) = true ->
  dict_get c "rain_size" = Some size ->
  between_sizes size ->
  dict_get c "rain_rate_last" = Some rate ->
  (forall e, py_float rate = Raise e -> fst (process_condition (PyDict c) f) = Raise e) /\
  (forall r, py_float rate = Ok r ->
     (rain_count_size f = None ->
        fst (process_condition (PyDict c) f) = Raise UnboundLocalError) /\
     (forall m, rain_count_size f = Some m ->
        rain_count_size (snd (process_condition (PyDict c) f)) = Some m /\
        _packet (snd (process_condition (PyDict c) f)) !! "rainRate"
          = Some (PyFloat (fmul r m)) /\
        (dict_get c "rain_storm" = None ->
           fst (process_condition (PyDict c) f) = Ok tt))).
Proof.
  intros Ht H1 Hsize (q & Hq & Hlo & Hhi & N1 & N2 & N3 & N4) Hrate.
  assert (forall k : Z, ~ (q == inject_Z k)%Q -> py_eq size (PyInt k) = false) as Hne.
  { intros k Hk. destruct (py_eq size (PyInt k)) eqn:E; [|done].
    apply py_eq_int in E as (q' & Hq' & E). rewrite Hq in Hq'. by simplify_eq. }
  apply Qle_bool_iff in Hlo, Hhi.
  set (after_rate := fun g : frame =>
         match dict_get c "rain_storm", dict_get c "rain_storm_start_at" with
         | Some rain_storm, Some rain_storm_start_at =>
             storm rain_storm rain_storm_start_at g
         | _, _ => (Ok tt, g)
         end).
  assert (forall g : frame,
            rain c g =
            match py_float rate with
            | Ok r =>
                match rain_count_size g with
                | Some m =>
                    after_rate (with_packet g (<["rainRate" := PyFloat (fmul r m)]> (_packet g)))
                | None => (Raise UnboundLocalError, g)
                end
            | Raise e => (Raise e, g)
            end) as Hrain.
  { intros g. unfold rain, after_rate. rewrite Hsize, Hrate.
    rewrite bind_run. unfold lift at 1.
    rewrite (py_le_numbers _ _ (Finite 1) (Finite q)) by done. cbn [number_leb]. rewrite Hlo.
    rewrite bind_run. unfold lift at 1.
    rewrite (py_le_numbers _ _ (Finite q) (Finite 4)) by done. cbn [number_leb]. rewrite Hhi.
    rewrite !Hne by done. run.
    destruct (py_float rate) as [r|e]; [|done].
    destruct (rain_count_size g) as [m|]; [|done].
    by destruct (dict_get c "rain_storm"), (dict_get c "rain_storm_start_at"). }
  assert (forall g : frame,
            process_condition (PyDict c) g =
            match rain c (with_packet g (copied c iss_fields (_packet g))) with
            | (Ok _, g') => for_each iss_fields_after_rain (copy c) g'
            | (Raise e, g') => (Raise e, g')
            end) as Hrun.
  { intros g. unfold process_condition, py_getitem. rewrite Ht.
    unfold lift at 1. rewrite bind_run, H1.
    by rewrite bind_run, for_each_copy, bind_run. }
  rewrite Hrun, Hrain. cbn [with_packet rain_count_size].
  split; [by intros e ->|]. intros r ->. split; [by intros ->|].
  intros m Hm. rewrite Hm.
  match goal with |- context [after_rate ?x] => set (g := x) end.
  assert (rain_count_size g = Some m /\
          _packet g !! "rainRate" = Some (PyFloat (fmul r m))) as Hg
    by (split; [exact Hm|apply lookup_insert_eq]).
  assert (rain_count_size (snd (after_rate g)) = Some m /\
          _packet (snd (after_rate g)) !! "rainRate" = Some (PyFloat (fmul r m))) as Hkept.
  { unfold after_rate.
    destruct (dict_get c "rain_storm") as [rain_storm|];
      [destruct (dict_get c "rain_storm_start_at") as [rain_storm_start_at|]|].
    1: by apply storm_keeps_rate.
    all: exact Hg. }
  clear Hg. clearbody g.
  destruct Hkept as [Hm' Hv].
  assert (dict_get c "rain_storm" = None -> fst (after_rate g) = Ok tt) as Hplain
    by (unfold after_rate; by intros ->).
  destruct (after_rate g) as [[[]|e] g'] eqn:E; cbn [fst snd] in *.
  - rewrite for_each_copy. cbn [fst snd with_packet rain_count_size _packet].
    rewrite copied_other by not_in. done.
  - split; [done|]. split; [done|]. intros H. by specialize (Hplain H).
Qed.


(** ** Further properties of the storm counter *)

(** X9. For counts that a float holds exactly (integers from 0 up to 2^53),
    the increment computed for a reading is a number that is never negative
    and never exceeds the current total of the storm. *)
Theorem X9_increment_within_total (f : frame) (total : Z) (start : value) :
  count total ->
  (last_rain_storm (self f) = PyNone \/
   exists total0, last_rain_storm (self f) = PyInt total0 /\ count total0) ->
  exists (d : value) (q : Q) (f' : frame),
    storm_count (PyInt total) start f = (Ok d, f') /\
    as_num d = Some (Finite q) /\
    (0 <= q)%Q /\ (q <= inject_Z total)%Q.
Proof.
  intros Ht Hstored.
  assert (0 <= inject_Z total)%Q as Hpos
    by (unfold Qle, inject_Z; simpl; unfold count in Ht; lia).
  assert (exists q, as_num (PyFloat zero) = Some (Finite q) /\
                    (0 <= q)%Q /\ (q <= inject_Z total)%Q) as Hzero
    by (exists 0%Q; split; [done|]; split; [lra|done]).
  rewrite storm_count_numeric;
    [|by apply count_is_number
     |destruct Hstored as [-> | (total0 & -> & H0)]; [done|by apply count_is_number]].
  destruct Hstored as [E0 | (total0 & E0 & H0)].
  { rewrite spec_delta_absent by (by left).
    destruct Hzero as (q & Hq). by eexists _, q, _. }
  destruct (none_or_not (last_rain_storm_start_at (self f))) as [E1|E1].
  { rewrite spec_delta_absent by (by right).
    destruct Hzero as (q & Hq). by eexists _, q, _. }
  rewrite spec_delta_present by (rewrite ?E0; done). rewrite E0.
  destruct (py_eq start _).
  - rewrite py_le_int. destruct (Z.leb_spec total0 total) as [Hle|Hlt].
    + cbn [to_float]. rewrite float_of_Z_sub by (unfold count in *; lia).
      destruct (float_of_count (total - total0)) as [_ (q & Hq & E)];
        [unfold count in *; lia|].
      eexists _, q, _. split; [done|]. split; [simpl; by rewrite Hq|].
      rewrite E. unfold count in *. split; unfold Qle, inject_Z; simpl; lia.
    + destruct Hzero as (q & Hq). by eexists _, q, _.
  - eexists _, (inject_Z total), _. split; [done|]. split; [done|]. split; [done|lra].
Qed.

(** A finite float minus itself is [0.0]. *)
Lemma fsub_diag (x : float) : finite x = true -> fsub x x = zero.
Proof.
  destruct x as [[]| | |s m e]; try done. intros _.
  unfold fsub, SFsub. rewrite Z.sub_diag. done.
Qed.

(** X10. Polling the same reading twice reports nothing the second time:
    when the total is a finite number and the start is equal to itself (it
    is not NaN), the second increment is [0.0]. *)
Theorem X10_same_reading_twice (f : frame) (total start : value) :
  finite_number total = true ->
  counter (last_rain_storm (self f)) = true ->
  py_eq start start = true ->
  exists (d1 : value) (f' : frame),
    deltas [(total, start); (total, start)] f = (Ok [d1; PyFloat zero], f').
Proof.
  unfold finite_number. intros [Hn Hfin]%andb_prop Hc Hrefl.
  cbn [deltas]. rewrite storm_count_numeric by done.
  assert (counter total = true) as Hc' by (unfold counter; by destruct total).
  rewrite storm_count_numeric by done.
  eexists _, _. do 3 f_equal.
  cbn [with_last self].
  destruct (none_or_not start) as [->|Hs];
    [by rewrite spec_delta_absent by (by right)|].
  rewrite spec_delta_present
    by (cbn [last_rain_storm last_rain_storm_start_at]; try done; by destruct total).
  cbn [last_rain_storm last_rain_storm_start_at]. rewrite Hrefl.
  rewrite fsub_diag by done. by destruct (py_le total total) as [[]|].
Qed.

(** X11. A reading whose storm start is null, as the device sends when no
    storm is running, differs from any stored start: its whole total is
    taken as the increment and the pair (total, None) is stored.  The stored
    start being [None], the next reading is treated as a first observation:
    its increment is 0.0, so the counts a new storm has at its first reading
    are never reported. *)
Theorem X11_null_start_resets_the_baseline (f : frame) (total total' start' : value) :
  last_rain_storm (self f) <> PyNone ->
  last_rain_storm_start_at (self f) <> PyNone ->
  storm_count total PyNone f = (Ok total, with_last f total PyNone) /\
  storm_count total' start' (with_last f total PyNone)
    = (Ok (PyFloat zero), with_last f total' start').
Proof.
  intros Ht Hs. destruct f as [[poll last last_start] size p]. simpl in Ht, Hs.
  unfold storm_count. split.
  - run. destruct last; try done; destruct last_start; done.
  - run. by destruct total.
Qed.

(** ** Further properties of the loop *)

Lemma cycle_yields_at_most_once (r : response) (f : frame) :
  length (yielded (trace (cycle r f))) <= (if answered r then 1 else 0).
Proof.
  destruct r as [|json]; [unfold cycle; rewrite sleep_2; simpl; lia|].
  destruct (parse json f) as [[[]|e] f'] eqn:E.
  - apply cycle_parsed in E as [-> _]. simpl. lia.
  - rewrite (cycle_failed _ _ _ _ E). destruct (handler_yields [] f') as [-> _]. simpl. lia.
Qed.

(** X12. A failed request yields nothing and leaves the generator as it was:
    dropping the failed requests from a run changes neither the packets
    yielded nor the final state, and a run yields at most one packet for
    each request that got a response. *)
Theorem X12_failed_requests_lose_nothing (rs : list response) (f : frame) :
  yielded (trace (genLoopPackets (List.filter answered rs) f))
    = yielded (trace (genLoopPackets rs f)) /\
  after (genLoopPackets (List.filter answered rs) f) = after (genLoopPackets rs f) /\
  stopped (genLoopPackets (List.filter answered rs) f) = stopped (genLoopPackets rs f) /\
  length (yielded (trace (genLoopPackets rs f))) <= length (List.filter answered rs).
Proof.
  revert f. induction rs as [|r rs IH]; intros f; [done|].
  destruct r as [|json].
  - cbn [List.filter answered genLoopPackets]. unfold cycle. rewrite sleep_2.
    cbn [stopped trace after]. destruct (IH f) as (Hy & Hf & Hs & Hlen).
    rewrite yielded_app. done.
  - cbn [List.filter answered genLoopPackets].
    pose proof (cycle_yields_at_most_once (Body json) f) as Hone.
    destruct (stopped (cycle (Body json) f)).
    + cbn [answered length] in *. do 3 (split; [done|]). lia.
    + destruct (IH (after (cycle (Body json) f))) as (Hy & Hf & Hs & Hlen).
      cbn [trace after stopped answered length] in *.
      rewrite !yielded_app, !length_app, Hy.
      do 3 (split; [done|]). lia.
Qed.

Lemma cycle_sleep (r : response) (f : frame) :
  Forall (sleeps_2_or (poll_interval (self f))) (trace (cycle r f)) /\
  poll_interval (self (after (cycle r f))) = poll_interval (self f).
Proof.
  split; [|rewrite cycle_after; destruct r as [|json]; [done|apply parse_polls]].
  destruct r as [|json].
  - unfold cycle. rewrite sleep_2.
    repeat (apply Forall_cons; split); try apply Forall_nil; simpl; auto.
  - pose proof (parse_polls json f) as Hp. unfold cycle, handler.
    destruct (parse json f) as [[[]|e] f']; cbn [snd] in Hp; rewrite Hp.
    + destruct (time_sleep _); cbn [trace app].
      all: repeat (apply Forall_cons; split); try apply Forall_nil; simpl; auto.
    + cbn [trace app].
      repeat (apply Forall_cons; split); try apply Forall_nil; simpl; auto.
Qed.

Lemma run_sleep (rs : list response) (f : frame) :
  Forall (sleeps_2_or (poll_interval (self f))) (trace (genLoopPackets rs f)) /\
  poll_interval (self (after (genLoopPackets rs f))) = poll_interval (self f).
Proof.
  revert f. induction rs as [|r rs IH]; intros f; [by split|].
  cbn [genLoopPackets]. destruct (cycle_sleep r f) as [Hev Hpoll].
  destruct (stopped (cycle r f)); [done|]. cbn [trace after].
  destruct (IH (after (cycle r f))) as [Hev' Hpoll']. rewrite Hpoll in Hev', Hpoll'.
  split; [|done]. apply Forall_app. by split.
Qed.

(** X14. The poll interval is never assigned by the loop, and in a run every
    sleep is asked to last 2 seconds or the poll interval the generator
    started with. *)
Theorem X14_sleeps_are_2_or_the_interval (rs : list response) (f : frame) :
  Forall (sleeps_2_or (poll_interval (self f))) (trace (genLoopPackets rs f)) /\
  poll_interval (self (after (genLoopPackets rs f))) = poll_interval (self f).
Proof. apply run_sleep. Qed.


(** What the parsing part does once [data.ts] and [data.conditions] are
    read. *)
Lemma parse_read (data d ts conditions : value) (f : frame) :
  py_getitem data "data" = Ok d ->
  py_getitem d "ts" = Ok ts ->
  py_getitem d "conditions" = Ok conditions ->
  parse (Some data) f =
  match py_iter conditions with
  | Ok items =>
      for_each items process_condition
        (with_packet f (<["usUnits" := weewx_US]> (<["dateTime" := ts]> ∅)))
  | Raise e =>
      (Raise e, with_packet f (<["usUnits" := weewx_US]> (<["dateTime" := ts]> ∅)))
  end.
Proof.
  intros Hd Hts Hc. unfold parse, fill_packet. run. rewrite Hd. run. rewrite Hts. run.
  rewrite Hc. run. by destruct (py_iter conditions).
Qed.

(** The events of a cycle whose parsing part raises. *)
Lemma cycle_failed_trace (json : option value) (f f' : frame) (e : exn) :
  parse json f = (Raise e, f') ->
  trace (cycle (Body json) f) =
    [Logerr "Error parsing the WeatherLink Live json data."; LogerrException;
     Sleep (PyFloat (poll_interval (self f)))] /\
  yielded (trace (cycle (Body json) f)) = [].
Proof.
  intros H. rewrite (cycle_failed _ _ _ _ H). unfold handler. cbn [trace app].
  pose proof (parse_polls json f) as Hp. rewrite H in Hp. cbn [snd] in Hp. by rewrite Hp.
Qed.

(** X15. [data.conditions] need not be a list.  When it has no item to
    iterate over (an empty list, an empty dict, an empty string), the cycle
    yields the packet made of [dateTime] and [usUnits] alone and leaves the
    instance as it was.  When it is anything else than a list and has an
    item, or cannot be iterated, the cycle yields nothing: the keys of a
    dict and the characters of a string are no records. *)
Theorem X15_conditions_that_are_no_list (data d ts conditions : value) (f : frame) :
  py_getitem data "data" = Ok d ->
  py_getitem d "ts" = Ok ts ->
  py_getitem d "conditions" = Ok conditions ->
  (py_iter conditions = Ok [] ->
     yielded (trace (cycle (Body (Some data)) f))
       = [<["usUnits" := weewx_US]> (<["dateTime" := ts]> ∅)] /\
     after (cycle (Body (Some data)) f)
       = with_packet f (<["usUnits" := weewx_US]> (<["dateTime" := ts]> ∅)) /\
     (sleeps_well (self f) ->
        cycle (Body (Some data)) f =
        {| trace := [Yield (<["usUnits" := weewx_US]> (<["dateTime" := ts]> ∅));
                     Sleep (PyFloat (poll_interval (self f)))];
           after := with_packet f (<["usUnits" := weewx_US]> (<["dateTime" := ts]> ∅));
           stopped := None |})) /\
  ((forall l, conditions <> PyList l) -> py_iter conditions <> Ok [] ->
     trace (cycle (Body (Some data)) f) =
       [Logerr "Error parsing the WeatherLink Live json data."; LogerrException;
        Sleep (PyFloat (poll_interval (self f)))] /\
     yielded (trace (cycle (Body (Some data)) f)) = []).
Proof.
  intros Hd Hts Hc. pose proof (parse_read data d ts conditions f Hd Hts Hc) as Hparse.
  split.
  - intros Hempty. rewrite Hempty in Hparse.
    destruct (cycle_parsed _ _ _ Hparse) as [Hy Ha].
    split; [exact Hy|]. split; [exact Ha|].
    intros Hw. by rewrite cycle_well, Hparse.
  - intros Hlist Hitems.
    assert (exists e f', parse (Some data) f = (Raise e, f')) as (e & f' & Hraise).
    { rewrite Hparse.
      destruct conditions as [| | | | s | l | kvs]; try (by eexists _, _).
      - destruct s as [|ch s]; [done|]. by eexists _, _.
      - by destruct (Hlist l).
      - destruct kvs as [|[k v] kvs]; [done|]. by eexists _, _. }
    by apply (cycle_failed_trace _ _ _ _ Hraise).
Qed.

(** X16. A record that cannot be subscripted with ["data_structure_type"] (a
    record without that key, or an item that is no dict) aborts the cycle:
    nothing is yielded, not even what the records before it gave, and the
    records after it are never processed. *)
Theorem X16_record_without_kind_aborts (bad : value) (e : exn) (ts : value)
    (before after : list value) (f : frame) :
  py_getitem bad "data_structure_type" = Raise e ->
  cycle (Body (Some (document ts (before ++ bad :: after)))) f =
    cycle (Body (Some (document ts (before ++ [bad])))) f /\
  yielded (trace (cycle (Body (Some (document ts (before ++ bad :: after)))) f)) = [].
Proof.
  intros Hbad.
  assert (forall g, process_condition bad g = (Raise e, g)) as Hraise.
  { intros g. unfold process_condition. by rewrite Hbad. }
  assert (forall rest g, exists e' g',
            for_each (before ++ bad :: rest) process_condition g = (Raise e', g') /\
            for_each (before ++ [bad]) process_condition g = (Raise e', g'))
    as Hloop.
  { intros rest g. rewrite !for_each_app.
    destruct (for_each before process_condition g) as [[[]|e'] g1].
    - exists e, g1. cbn [for_each]. by rewrite !bind_run, Hraise.
    - by exists e', g1. }
  assert (forall rest,
            parse (Some (document ts (before ++ bad :: rest))) f =
            for_each (before ++ bad :: rest) process_condition
              (with_packet f (<["usUnits" := weewx_US]> (<["dateTime" := ts]> ∅))))
    as Hparse.
  { intros rest. unfold document.
    by rewrite (parse_read _ (PyDict [("ts", ts);
                                      ("conditions", PyList (before ++ bad :: rest))])
                  ts (PyList (before ++ bad :: rest))). }
  destruct (Hloop after (with_packet f (<["usUnits" := weewx_US]> (<["dateTime" := ts]> ∅))))
    as (e' & g' & Hlong & Hshort).
  assert (parse (Some (document ts (before ++ bad :: after))) f = (Raise e', g')) as H1
    by (by rewrite Hparse).
  assert (parse (Some (document ts (before ++ [bad]))) f = (Raise e', g')) as H2
    by (by rewrite Hparse).
  rewrite (cycle_failed _ _ _ _ H1), (cycle_failed _ _ _ _ H2).
  split; [done|]. by destruct (handler_yields [] g') as [-> _].
Qed.


(** ** The constructor and the loader *)

(** X17. A missing host does not stop the construction: without ['host'] (or
    with [None]) the error is logged and the service URL is built around the
    text [None]; with a text [h] nothing is logged about the host and the URL
    is [http://h:80/v1/current_conditions]. *)
Theorem X17_service_url (str_of : value -> string) (stn_dict : list (string * value))
    (log : list event) (i : instance) :
  WLL__init__ str_of stn_dict = (log, Ok i) ->
  (forall h, dict_get stn_dict "host" = Some (PyStr h) ->
     service_url i = "http://" ++ h ++ ":80/v1/current_conditions" /\
     ~ In (Logerr "The WeatherLink Live hostname or ip address is required.") log) /\
  (dict_get stn_dict "host" = None \/ dict_get stn_dict "host" = Some PyNone ->
     host i = PyNone /\
     service_url i = "http://None:80/v1/current_conditions" /\
     In (Logerr "The WeatherLink Live hostname or ip address is required.") log).
Proof.
  unfold WLL__init__.
  destruct (py_float _) as [x|e]; [|done]. intros [= <- <-]. split.
  - intros h ->. cbn. split; [done|].
    destruct (number_ltb _ _); simpl; intuition discriminate.
  - intros [-> | ->]; cbn; (split; [done|]); (split; [done|]); by left.
Qed.

(** X18. The poll interval is taken as it is given, never clamped: it is
    10.0 when the argument is missing, and otherwise what [float()] makes
    of the argument; the error about it is logged exactly when it is below
    10, and the instance is built all the same, with no reading stored.
    When [float()] raises, so does the constructor. *)
Theorem X18_poll_interval (str_of : value -> string) (stn_dict : list (string * value)) :
  (dict_get stn_dict "poll_interval" = None ->
     exists log i,
       WLL__init__ str_of stn_dict = (log, Ok i) /\
       poll_interval (driver i) = float_of_Z 10 /\ both_absent (driver i) /\
       ~ In (Logerr "The `poll_interval` parameter should be 10 or greater.") log) /\
  (forall v x,
     dict_get stn_dict "poll_interval" = Some v -> py_float v = Ok x ->
     exists log i,
       WLL__init__ str_of stn_dict = (log, Ok i) /\
       poll_interval (driver i) = x /\ both_absent (driver i) /\
       (In (Logerr "The `poll_interval` parameter should be 10 or greater.") log
        <-> number_lt (number_of_float x) (Finite 10))) /\
  (forall v e,
     dict_get stn_dict "poll_interval" = Some v -> py_float v = Raise e ->
     snd (WLL__init__ str_of stn_dict) = Raise e).
Proof.
  unfold WLL__init__. split; [|split].
  - intros ->. cbn [default id].
    change (py_float (PyInt 10)) with (Ok (A:=float) (float_of_Z 10)).
    change (number_ltb (number_of_float (float_of_Z 10)) (Finite 10)) with false.
    eexists _, _. split; [done|]. split; [done|]. split; [done|].
    rewrite app_nil_r. destruct (is_not_None _); simpl; intuition discriminate.
  - intros v x -> Hx. cbn [default id]. rewrite Hx.
    eexists _, _. split; [done|]. split; [done|]. split; [done|].
    rewrite in_app_iff. unfold number_lt.
    destruct (number_ltb _ _) eqn:E.
    + split; [done|]. intros _. right. by left.
    + split; [|done]. intros [Hin|Hin]; [|done].
      destruct (is_not_None _); simpl in Hin; intuition discriminate.
  - intros v e -> He. cbn [default id]. by rewrite He.
Qed.

(** X19. [loader] builds the driver from the ['WLL'] section alone: the
    engine plays no part, and without the section it raises before anything
    is logged.  The driver it returns reports the section's [hardware] as
    its hardware name, and every sleep of its loop is asked to last 2
    seconds or what [float()] makes of the section's [poll_interval] (10.0
    when missing). *)
Theorem X19_loader (str_of : value -> string) (config_dict engine : value) :
  (forall engine', loader str_of config_dict engine' = loader str_of config_dict engine) /\
  (forall e, py_getitem config_dict "WLL" = Raise e ->
     loader str_of config_dict engine = ([], Raise e)) /\
  (forall log i,
     loader str_of config_dict engine = (log, Ok i) ->
     exists stn_dict x,
       py_getitem config_dict "WLL" = Ok (PyDict stn_dict) /\
       py_float (default (PyInt 10) (dict_get stn_dict "poll_interval")) = Ok x /\
       hardware_name i = default PyNone (dict_get stn_dict "hardware") /\
       forall rs, Forall (sleeps_2_or x) (trace (genLoopPackets rs (start (driver i))))).
Proof.
  split; [done|]. split; [by intros e; unfold loader; intros ->|].
  intros log i. unfold loader.
  destruct (py_getitem config_dict "WLL") as [[| | | | | |stn_dict]|e]; try done.
  destruct (dict_get stn_dict "self"); [done|].
  unfold WLL__init__.
  destruct (py_float _) as [x|e] eqn:Hx; [|done]. intros [= <- <-].
  exists stn_dict, x. split; [done|]. split; [done|]. split; [done|].
  intros rs. cbn [driver].
  exact (proj1 (run_sleep rs (start {| poll_interval := x; last_rain_storm := PyNone;
                                       last_rain_storm_start_at := PyNone |}))).
Qed.

End Driver.

(** ** Closed instances

    None of the inputs below holds a [str] where the driver calls
    [float()], so the instance of [float_of_str] plays no part; they are
    stated with [no_text]. *)






Lemma C3_null_is_passed_through_witness :
  let c := [("data_structure_type", PyInt 4); ("temp_in", PyNone)] in
  let f := start (__init__ None) in
  In ("temp_in", "inTemp") (passthrough (PyInt 4)) /\
  _packet (snd (process_condition no_text (PyDict c) f)) !! "inTemp" = Some PyNone.
Proof.
  intros c f.
  assert (In ("temp_in", "inTemp") (passthrough (PyInt 4))) as Hin by (simpl; tauto).
  split; [exact Hin|].
  apply (C3_null_is_passed_through no_text c (PyInt 4) f _ "temp_in" "inTemp");
    [reflexivity | exact Hin | discriminate | reflexivity | reflexivity].
Defined.

(** C3 as stated fails: a null [temp] yields the entry [outTemp], which an
    absent [temp] does not. *)
Lemma C3_counterexample :
  entry (cycle no_text (Body (Some (document (PyInt 1000) [record 1 [("temp", PyNone)]])))
           (start (__init__ None))) "outTemp" = Some (Some PyNone) /\
  entry (cycle no_text (Body (Some (document (PyInt 1000) [record 1 []])))
           (start (__init__ None))) "outTemp" = Some None.
Proof. exact (null_entry no_text). Qed.

Lemma C4_sum_of_deltas_witness :
  let f := stored (PyInt 10) (PyInt 500) in
  count 10 /\ Forall count [15; 20]%Z /\ non_decreasing [15; 20]%Z /\
  exists (ds : list value) (f' : frame),
    deltas no_text (readings_of (PyInt 500) [15; 20]%Z) f = (Ok ds, f') /\
    (total_of ds == inject_Z (20 - Z.min 10 15))%Q.
Proof.
  intros f.
  assert (forall n, (0 <= n < 100)%Z -> count n) as Hsmall by (unfold count; lia).
  assert (count 10) as H0 by (apply Hsmall; lia).
  assert (Forall count [15; 20]%Z) as Hall by (repeat constructor; apply Hsmall; lia).
  assert (non_decreasing [15; 20]%Z) as Hmono by (split; [lia|exact I]).
  split; [exact H0|]. split; [exact Hall|]. split; [exact Hmono|].
  apply (C4_sum_of_deltas no_text f 10 15 (PyInt 500) [20%Z]);
    [reflexivity | reflexivity | discriminate | reflexivity | exact H0 | exact Hall
    | exact Hmono].
Defined.

(** C4 as stated fails: with (10, 500) stored, the single reading (15, 500)
    keeps the storm start and is a non-decreasing sequence, its increment
    is 5, and the last total minus the first total of the sequence is 0. *)
Lemma C4_counterexample :
  let f := stored (PyInt 10) (PyInt 500) in
  last_rain_storm_start_at (self f) = PyInt 500 /\
  non_decreasing [15%Z] /\
  deltas no_text (readings_of (PyInt 500) [15%Z]) f
    = (Ok [PyFloat (float_of_Z 5)], stored (PyInt 15) (PyInt 500)) /\
  (total_of [PyFloat (float_of_Z 5)] == 5)%Q /\
  ~ (total_of [PyFloat (float_of_Z 5)] == inject_Z (15 - 15))%Q.
Proof.
  intros f. split; [reflexivity|]. split; [exact I|].
  split; [exact (delta_above_stored no_text)|]. split; by vm_compute.
Qed.

(** C6 as stated fails: from the initial state, a cycle that processes a rain
    record whose [rain_storm_start_at] is null yields its packet and leaves a
    total stored next to an absent storm start. *)
Lemma C6_counterexample :
  let f := start (__init__ None) in
  let out := cycle no_text
               (Body (Some (document (PyInt 1000) [storm_record (PyInt 0) PyNone]))) f in
  invariant (self f) /\
  precipitation_capable (storm_record (PyInt 0) PyNone) = true /\
  entry out "rain" = Some (Some (PyFloat (fmul zero (literal 1 100)))) /\
  ~ invariant (self (after out)).
Proof.
  intros f out. split; [by left|]. split; [reflexivity|].
  destruct (null_start_stored no_text) as (Hrain & Htotal & Hstart).
  split; [exact Hrain|].
  intros [[Habsent _] | [_ Hpresent]].
  - fold f out in Htotal. rewrite Htotal in Habsent. discriminate.
  - apply Hpresent. exact Hstart.
Qed.

Lemma C8_unknown_type_ignored_witness :
  let condition := record 5 [("temp", PyInt 20)] in
  unknown_type (PyInt 5) /\
  (forall f : frame, process_condition no_text condition f = (Ok tt, f)) /\
  (forall (before after : list value) (f : frame),
     for_each (before ++ condition :: after) (process_condition no_text) f =
     for_each (before ++ after) (process_condition no_text) f) /\
  (forall (ts : value) (before after : list value) (f : frame),
     cycle no_text (Body (Some (document ts (before ++ condition :: after)))) f =
     cycle no_text (Body (Some (document ts (before ++ after)))) f).
Proof.
  intros condition.
  assert (unknown_type (PyInt 5)) as Hv by (repeat split; discriminate).
  split; [exact Hv|].
  apply (C8_unknown_type_ignored no_text condition (PyInt 5)); [reflexivity | exact Hv].
Defined.

Lemma C6_stored_pair_invariant_witness :
  let json := Some (document (PyInt 1000) [storm_record (PyInt 10) (PyInt 500)]) in
  let f := start (__init__ None) in
  forallb storm_not_null (records (Body json)) = true /\
  precipitation_capable (storm_record (PyInt 10) (PyInt 500)) = true /\
  invariant (self f) /\
  invariant (self (after (cycle no_text (Body json) f))) /\
  both_present (self (snd (parse no_text json f))).
Proof.
  intros json f.
  destruct (C6_stored_pair_invariant no_text) as (Hinit & Hstep & Hpresent).
  assert (forallb storm_not_null (records (Body json)) = true) as Hall by reflexivity.
  assert (invariant (self f)) as Hf by apply (Hinit None).
  split; [exact Hall|]. split; [reflexivity|]. split; [exact Hf|].
  split; [exact (Hstep (Body json) f Hall Hf)|].
  apply (Hpresent json (storm_record (PyInt 10) (PyInt 500)) f);
    [exact Hall | by left | reflexivity | by vm_compute].
Defined.

Lemma C9_failures_keep_the_loop_running_witness :
  let f := start (__init__ None) in
  let broken := PyDict [("data", PyDict [("conditions", PyList [])])] in
  sleeps_well (self f) /\
  cycle no_text GetRaises f =
    {| trace := [Logerr "Error connecting to the WeatherLink Live device.";
                 LogerrException; Sleep (PyInt 2)];
       after := f; stopped := None |} /\
  py_getitem broken "data" = Ok (PyDict [("conditions", PyList [])]) /\
  py_getitem (PyDict [("conditions", PyList [])]) "ts" = Raise KeyError /\
  trace (cycle no_text (Body (Some broken)) f) =
    [Logerr "Error parsing the WeatherLink Live json data."; LogerrException;
     Sleep (PyFloat (float_of_Z 10))] /\
  stopped (cycle no_text (Body (Some broken)) f) = None /\
  sleeps (trace (genLoopPackets no_text [Body (Some broken); GetRaises; Body None] f)) = 3.
Proof.
  intros f broken.
  assert (sleeps_well (self f)) as Hw by (by vm_compute).
  destruct (C9_failures_keep_the_loop_running no_text GetRaises [] f Hw)
    as (_ & _ & Hget & _).
  destruct (C9_failures_keep_the_loop_running no_text (Body (Some broken))
              [GetRaises; Body None] f Hw)
    as (Hgo & _ & _ & Hparse & Hmalformed & _ & Hsleeps).
  split; [exact Hw|].
  split; [exact (Hget eq_refl)|]. split; [reflexivity|]. split; [reflexivity|].
  split; [|split; [exact Hgo|exact Hsleeps]].
  destruct (Hmalformed (Some broken) eq_refl) as (e & f' & Hraise).
  { right. exists broken. split; [reflexivity|]. right.
    exists (PyDict [("conditions", PyList [])]). split; [reflexivity|].
    left. by exists KeyError. }
  by rewrite (Hparse (Some broken) e f' eq_refl Hraise).
Defined.

(** C9 as stated fails.  The constructor accepts a poll interval of -1 (it
    logs an error and goes on); with it, a response that is not JSON is
    logged, and the sleep of the handler raises [ValueError] outside any
    [try]: the generator ends, and the requests after it are never made. *)
Lemma C9_counterexample :
  let w := __init__ (Some (float_of_Z (-1))) in
  let f := start w in
  (exists host url hardware,
     WLL__init__ no_text no_str [("poll_interval", PyInt (-1))] =
     ([Logerr "The WeatherLink Live hostname or ip address is required.";
       Logerr "The `poll_interval` parameter should be 10 or greater."],
      Ok {| host := host; service_url := url; hardware := hardware; driver := w |})) /\
  time_sleep (PyFloat (poll_interval w)) = Raise ValueError /\
  cycle no_text (Body None) f =
    {| trace := [Logerr "Error parsing the WeatherLink Live json data."; LogerrException;
                 Sleep (PyFloat (float_of_Z (-1)))];
       after := f; stopped := Some ValueError |} /\
  genLoopPackets no_text [Body None; GetRaises; Body None] f = cycle no_text (Body None) f /\
  sleeps (trace (genLoopPackets no_text [Body None; GetRaises; Body None] f)) = 1.
Proof.
  intros w f. split; [by eexists _, _, _|]. split; [by vm_compute|].
  destruct (negative_interval_stops no_text) as [Hcycle Hrun].
  split; [exact Hcycle|]. split; [exact Hrun|].
  fold w f in Hrun, Hcycle. by rewrite Hrun, Hcycle.
Qed.

(** ** Closed instances of the further properties *)

Lemma X1_packet_is_stamped_witness :
  let r := Body (Some (document (PyInt 1000) [storm_record (PyInt 10) (PyInt 500)])) in
  let f := start (__init__ None) in
  let p := _packet (after (cycle no_text r f)) in
  In (Yield p) (trace (cycle no_text r f)) /\
  exists data d ts,
    r = Body (Some data) /\ py_getitem data "data" = Ok d /\ py_getitem d "ts" = Ok ts /\
    p !! "dateTime" = Some ts /\ p !! "usUnits" = Some weewx_US.
Proof.
  intros r f p.
  assert (In (Yield p) (trace (cycle no_text r f))) as Hin by (left; by vm_compute).
  split; [exact Hin|]. exact (X1_packet_is_stamped no_text r f p Hin).
Defined.

Lemma X2_no_source_no_key_witness :
  let r := Body (Some (document (PyInt 1000) [storm_record (PyInt 10) (PyInt 500)])) in
  let f := start (__init__ None) in
  let p := _packet (after (cycle no_text r f)) in
  In (Yield p) (trace (cycle no_text r f)) /\ p !! "barometer" = None.
Proof.
  intros r f p.
  assert (In (Yield p) (trace (cycle no_text r f))) as Hin by (left; by vm_compute).
  split; [exact Hin|].
  apply (X2_no_source_no_key no_text r f p "barometer" Hin); [discriminate..|].
  intros c src [Hc|[]] Hsrc. injection Hc as <-.
  repeat (destruct Hsrc as [Hsrc|Hsrc];
          [try discriminate Hsrc; injection Hsrc as <-; reflexivity|]).
  destruct Hsrc.
Defined.

Lemma X3_packet_keys_are_closed_witness :
  let r := Body (Some (document (PyInt 1000)
             [record 2 [("moist_soil_2", PyInt 31); ("unheard_of", PyInt 1)]])) in
  let f := start (__init__ None) in
  let p := _packet (after (cycle no_text r f)) in
  In (Yield p) (trace (cycle no_text r f)) /\
  (forall key, is_Some (p !! key) -> In key packet_keys) /\
  p !! "soilMoist2" = None.
Proof.
  intros r f p.
  assert (In (Yield p) (trace (cycle no_text r f))) as Hin by (left; by vm_compute).
  split; [exact Hin|]. exact (X3_packet_keys_are_closed no_text r f p Hin).
Defined.

Lemma X4_last_record_wins_witness :
  let first := [("data_structure_type", PyInt 3); ("bar_absolute", PyInt 29)] in
  let last := [("data_structure_type", PyInt 3); ("bar_absolute", PyStr "n/a")] in
  let r := Body (Some (document (PyInt 1000) [PyDict first; PyDict last])) in
  let f := start (__init__ None) in
  let p := _packet (after (cycle no_text r f)) in
  In (Yield p) (trace (cycle no_text r f)) /\
  In ("bar_absolute", "pressure") (passthrough (PyInt 3)) /\
  p !! "pressure" = Some (PyStr "n/a").
Proof.
  intros first last r f p.
  assert (In (Yield p) (trace (cycle no_text r f))) as Hin by (left; by vm_compute).
  assert (In ("bar_absolute", "pressure") (passthrough (PyInt 3))) as Hrow
    by (simpl; tauto).
  split; [exact Hin|]. split; [exact Hrow|].
  apply (X4_last_record_wins no_text r f p [PyDict first] last (PyInt 3) (PyStr "n/a")
           "bar_absolute" "pressure" Hin);
    [reflexivity | reflexivity | exact Hrow | discriminate | reflexivity].
Defined.

Lemma X5_plain_records_never_raise_witness :
  let c := [("data_structure_type", PyInt 2); ("temp_1", PyNone);
            ("moist_soil_1", PyList [PyStr "wet"]); ("rain_size", PyNone)] in
  let f := stored (PyInt 10) (PyInt 500) in
  exists f' : frame,
    process_condition no_text (PyDict c) f = (Ok tt, f') /\
    self f' = self f /\
    rain_count_size f' = rain_count_size f /\
    forall k, ~ In k (map snd (passthrough (PyInt 2))) -> _packet f' !! k = _packet f !! k.
Proof.
  intros c f.
  apply (X5_plain_records_never_raise no_text c (PyInt 2) f); reflexivity.
Defined.

Lemma X6_collector_type_out_of_range_witness :
  let c := [("data_structure_type", PyInt 1); ("rain_size", PyInt 0);
            ("rain_rate_last", PyNone); ("rain_storm", PyInt 7);
            ("rain_storm_start_at", PyInt 900)] in
  let f := stored (PyInt 10) (PyInt 500) in
  out_of_range (PyInt 0) /\
  exists f' : frame,
    process_condition no_text (PyDict c) f = (Ok tt, f') /\
    self f' = self f /\
    rain_count_size f' = rain_count_size f /\
    _packet f' !! "rain" = _packet f !! "rain" /\
    _packet f' !! "rainRate" = _packet f !! "rainRate".
Proof.
  intros c f.
  assert (out_of_range (PyInt 0)) as Hout
    by (exists 0%Q; split; [reflexivity|]; left; reflexivity).
  split; [exact Hout|].
  apply (X6_collector_type_out_of_range no_text c (PyInt 1) f); [reflexivity..|].
  right. exists (PyInt 0). split; [reflexivity|exact Hout].
Defined.

Lemma X7_stored_pair_untouched_witness :
  let r := Body (Some (document (PyInt 1000)
             [record 4 [("temp_in", PyInt 70)];
              record 1 [("rain_size", PyInt 1); ("rain_storm", PyInt 12)]])) in
  let f := stored (PyInt 10) (PyInt 500) in
  self (after (cycle no_text r f)) = self f.
Proof.
  intros r f. apply (X7_stored_pair_untouched no_text r f).
  intros condition [<-|[<-|[]]]; reflexivity.
Defined.

Lemma X8_multiplier_of_an_earlier_record_witness :
  let c := [("data_structure_type", PyInt 1); ("rain_size", PyFloat (literal 5 2));
            ("rain_rate_last", PyInt 7)] in
  between_sizes (PyFloat (literal 5 2)) /\
  fst (process_condition no_text (PyDict c) (start (__init__ None)))
    = Raise UnboundLocalError /\
  rain_count_size (snd (process_condition no_text (PyDict c) (stored (PyInt 10) (PyInt 500))))
    = Some (literal 1 100) /\
  _packet (snd (process_condition no_text (PyDict c) (stored (PyInt 10) (PyInt 500))))
    !! "rainRate" = Some (PyFloat (fmul (float_of_Z 7) (literal 1 100))) /\
  fst (process_condition no_text (PyDict c) (stored (PyInt 10) (PyInt 500))) = Ok tt.
Proof.
  intros c.
  assert (between_sizes (PyFloat (literal 5 2))) as Hsize.
  { eexists. split; [reflexivity|]. vm_compute. repeat split; discriminate. }
  split; [exact Hsize|].
  destruct (X8_multiplier_of_an_earlier_record no_text c (PyInt 1) (PyFloat (literal 5 2))
              (PyInt 7) (start (__init__ None)) eq_refl eq_refl eq_refl Hsize eq_refl)
    as [_ Hfresh].
  destruct (X8_multiplier_of_an_earlier_record no_text c (PyInt 1) (PyFloat (literal 5 2))
              (PyInt 7) (stored (PyInt 10) (PyInt 500)) eq_refl eq_refl eq_refl Hsize eq_refl)
    as [_ Hstale].
  split; [exact (proj1 (Hfresh (float_of_Z 7) eq_refl) eq_refl)|].
  destruct (proj2 (Hstale (float_of_Z 7) eq_refl) (literal 1 100) eq_refl)
    as (Hm & Hv & Hok).
  split; [exact Hm|]. split; [exact Hv|]. exact (Hok eq_refl).
Defined.

Lemma X9_increment_within_total_witness :
  let f := stored (PyInt 10) (PyInt 500) in
  count 15 /\ count 10 /\
  exists (d : value) (q : Q) (f' : frame),
    storm_count no_text (PyInt 15) (PyInt 500) f = (Ok d, f') /\
    as_num d = Some (Finite q) /\
    (0 <= q)%Q /\ (q <= inject_Z 15)%Q.
Proof.
  intros f.
  assert (count 15) as H1 by (unfold count; lia).
  assert (count 10) as H0 by (unfold count; lia).
  split; [exact H1|]. split; [exact H0|].
  apply (X9_increment_within_total no_text f 15 (PyInt 500) H1).
  right. exists 10%Z. split; [reflexivity|exact H0].
Defined.

Lemma X10_same_reading_twice_witness :
  finite_number (PyInt 15) = true /\
  exists (d1 : value) (f' : frame),
    deltas no_text [(PyInt 15, PyInt 500); (PyInt 15, PyInt 500)]
      (stored (PyInt 10) (PyInt 500))
    = (Ok [d1; PyFloat zero], f').
Proof.
  split; [by vm_compute|].
  apply (X10_same_reading_twice no_text (stored (PyInt 10) (PyInt 500))
           (PyInt 15) (PyInt 500)); by vm_compute.
Defined.

Lemma X11_null_start_resets_the_baseline_witness :
  let f := stored (PyInt 10) (PyInt 500) in
  storm_count no_text (PyInt 0) PyNone f
    = (Ok (PyInt 0), with_last f (PyInt 0) PyNone) /\
  storm_count no_text (PyInt 4) (PyInt 900) (with_last f (PyInt 0) PyNone)
    = (Ok (PyFloat zero), with_last f (PyInt 4) (PyInt 900)).
Proof.
  intros f.
  apply (X11_null_start_resets_the_baseline no_text f (PyInt 0) (PyInt 4) (PyInt 900));
    discriminate.
Defined.

Lemma X15_conditions_that_are_no_list_witness :
  let d := PyDict [("ts", PyInt 1000); ("conditions", PyDict [])] in
  let data := PyDict [("data", d)] in
  let f := start (__init__ None) in
  sleeps_well (self f) /\
  cycle no_text (Body (Some data)) f =
    {| trace := [Yield (<["usUnits" := weewx_US]> (<["dateTime" := PyInt 1000]> ∅));
                 Sleep (PyFloat (float_of_Z 10))];
       after := with_packet f (<["usUnits" := weewx_US]> (<["dateTime" := PyInt 1000]> ∅));
       stopped := None |}.
Proof.
  intros d data f.
  assert (sleeps_well (self f)) as Hw by (by vm_compute).
  split; [exact Hw|].
  destruct (X15_conditions_that_are_no_list no_text data d (PyInt 1000) (PyDict []) f
              eq_refl eq_refl eq_refl) as [Hempty _].
  exact (proj2 (proj2 (Hempty eq_refl)) Hw).
Defined.

Lemma X16_record_without_kind_aborts_witness :
  let good := storm_record (PyInt 10) (PyInt 500) in
  let f := start (__init__ None) in
  cycle no_text (Body (Some (document (PyInt 1000) ([good] ++ PyDict [] :: [good])))) f =
    cycle no_text (Body (Some (document (PyInt 1000) ([good] ++ [PyDict []])))) f /\
  yielded (trace (cycle no_text
                    (Body (Some (document (PyInt 1000) ([good] ++ PyDict [] :: [good])))) f))
    = [].
Proof.
  intros good f.
  apply (X16_record_without_kind_aborts no_text (PyDict []) KeyError (PyInt 1000)
           [good] [good] f).
  reflexivity.
Defined.

Lemma X17_service_url_witness :
  let stn_dict := [("host", PyStr "192.168.1.7")] in
  let i := {| host := PyStr "192.168.1.7";
              service_url := "http://192.168.1.7:80/v1/current_conditions";
              hardware := PyNone;
              driver := __init__ None |} in
  WLL__init__ no_text no_str stn_dict = ([], Ok i) /\
  (forall h, dict_get stn_dict "host" = Some (PyStr h) ->
     service_url i = "http://" ++ h ++ ":80/v1/current_conditions" /\
     ~ In (Logerr "The WeatherLink Live hostname or ip address is required.") []).
Proof.
  intros stn_dict i.
  assert (WLL__init__ no_text no_str stn_dict = ([], Ok i)) as Hinit by (by vm_compute).
  split; [exact Hinit|].
  exact (proj1 (X17_service_url no_text no_str stn_dict [] i Hinit)).
Defined.

Lemma X18_poll_interval_witness :
  exists log i,
    WLL__init__ no_text no_str [("poll_interval", PyInt 5)] = (log, Ok i) /\
    poll_interval (driver i) = float_of_Z 5 /\ both_absent (driver i) /\
    (In (Logerr "The `poll_interval` parameter should be 10 or greater.") log
     <-> number_lt (number_of_float (float_of_Z 5)) (Finite 10)).
Proof.
  destruct (X18_poll_interval no_text no_str [("poll_interval", PyInt 5)])
    as (_ & Hgiven & _).
  apply (Hgiven (PyInt 5) (float_of_Z 5)); reflexivity.
Defined.

Lemma X19_loader_witness :
  let section := [("host", PyStr "192.168.1.7"); ("hardware", PyStr "WLL 6100")] in
  let config_dict := PyDict [("WLL", PyDict section)] in
  exists log i stn_dict x,
    loader no_text no_str config_dict PyNone = (log, Ok i) /\
    py_getitem config_dict "WLL" = Ok (PyDict stn_dict) /\
    py_float no_text (default (PyInt 10) (dict_get stn_dict "poll_interval")) = Ok x /\
    hardware_name i = default PyNone (dict_get stn_dict "hardware") /\
    forall rs, Forall (sleeps_2_or x) (trace (genLoopPackets no_text rs (start (driver i)))).
Proof.
  intros section config_dict.
  assert (exists log i, loader no_text no_str config_dict PyNone = (log, Ok i))
    as (log & i & Hload) by (eexists _, _; by vm_compute).
  destruct (X19_loader no_text no_str config_dict PyNone) as (_ & _ & Hbuilt).
  destruct (Hbuilt _ _ Hload) as (stn_dict & x & H).
  exists log, i, stn_dict, x. split; [exact Hload|]. exact H.
Defined.
